(** * mjai bot base class ([python/mjai/bot/base.py]): a shallow embedding

    The class [Bot] is a thin layer over a rules engine ([PlayerState],
    [ActionCandidate]) and a tile-efficiency search.  The engine is an
    interface here; the methods of [Bot] are functions over a record holding
    the three fields of the object.  Python exceptions are values of a small
    error monad, [json.dumps] is a function on JSON values, the standard
    streams are lists of lines. *)

From Stdlib Require Import List String Ascii ZArith Lia Bool Arith.
From Stdlib Require Import DecimalString Permutation Sorted.
Import ListNotations.
Open Scope string_scope.

(** ** Python strings and exceptions *)

(** The double-quote character, as a one-character string. *)
Definition dq : string := String (ascii_of_nat 34) EmptyString.

(** [str(n)] for a Python int. *)
Definition str_of_int (z : Z) : string := NilZero.string_of_int (Z.to_int z).

(** Exception classes met in this module.  [SystemExit] and
    [KeyboardInterrupt] derive from [BaseException] only; every other class
    derives from [Exception]. *)
Inductive exn_class : Type :=
| AssertionError
| ValueError
| TypeError
| IndexError
| JSONDecodeError
| EngineError
| OtherException
| SystemExit
| KeyboardInterrupt.

Definition is_Exception (c : exn_class) : bool :=
  match c with
  | SystemExit | KeyboardInterrupt => false
  | _ => true
  end.

(** A raised exception: its class and [str(e)]. *)
Record exn : Type := Exn { exn_cls : exn_class; exn_str : string }.

Inductive result (A : Type) : Type :=
| Ok (a : A)
| Raise (e : exn).
Arguments Ok {A} a.
Arguments Raise {A} e.

Definition bind {A B : Type} (m : result A) (k : A -> result B) : result B :=
  match m with
  | Ok a => k a
  | Raise e => Raise e
  end.

Declare Scope py_scope.
Delimit Scope py_scope with py.
Notation "x <- m ;; k" := (bind m (fun x => k))
  (at level 61, m at next level, right associativity) : py_scope.
Open Scope py_scope.

(** [l[i]] on a Python list, for a non-negative literal index. *)
Definition py_getitem {A : Type} (l : list A) (i : nat) : result A :=
  match nth_error l i with
  | Some a => Ok a
  | None => Raise (Exn IndexError "list index out of range")
  end.

(** [assert o is not None] followed by a use of [o]. *)
Definition assert_not_None {A : Type} (o : option A) : result A :=
  match o with
  | Some a => Ok a
  | None => Raise (Exn AssertionError "")
  end.

(** ** JSON values and [json.dumps] *)

(** What [json.loads] returns.  A float is carried by its [repr]: the bot
    never computes with one.  A dict keeps its insertion order. *)
#[local] Unset Elimination Schemes.
Inductive json : Type :=
| JNull
| JBool (b : bool)
| JInt (z : Z)
| JFloat (repr : string)
| JStr (s : string)
| JArr (l : list json)
| JObj (kvs : list (string * json)).
#[local] Set Elimination Schemes.

Definition hex_digit (n : nat) : string :=
  String (ascii_of_nat (if (n <? 10)%nat then 48 + n else 87 + n)) EmptyString.

(** One character of a string under [ensure_ascii=True]: the short escapes,
    [\u00xx] for anything outside [' '..'~'], the character itself
    otherwise. *)
Definition escape_char (c : ascii) : string :=
  let n := nat_of_ascii c in
  if (n =? 34)%nat then "\" ++ dq
  else if (n =? 92)%nat then "\\"
  else if (n =? 8)%nat then "\b"
  else if (n =? 12)%nat then "\f"
  else if (n =? 10)%nat then "\n"
  else if (n =? 13)%nat then "\r"
  else if (n =? 9)%nat then "\t"
  else if (n <? 32)%nat || (126 <? n)%nat then
    "\u00" ++ hex_digit (n / 16) ++ hex_digit (n mod 16)
  else String c EmptyString.

Fixpoint escape_string (s : string) : string :=
  match s with
  | EmptyString => EmptyString
  | String c r => escape_char c ++ escape_string r
  end.

Definition dumps_str (s : string) : string := dq ++ escape_string s ++ dq.

(** [json.dumps(v, separators=(item_sep, key_sep))]. *)
Fixpoint json_dumps (item_sep key_sep : string) (v : json) : string :=
  match v with
  | JNull => "null"
  | JBool true => "true"
  | JBool false => "false"
  | JInt z => str_of_int z
  | JFloat r => r
  | JStr s => dumps_str s
  | JArr l =>
      "[" ++
      (fix items (l : list json) : string :=
         match l with
         | [] => ""
         | x :: r =>
             json_dumps item_sep key_sep x ++
             match r with [] => "" | _ => item_sep ++ items r end
         end) l ++ "]"
  | JObj kvs =>
      "{" ++
      (fix items (l : list (string * json)) : string :=
         match l with
         | [] => ""
         | (k, x) :: r =>
             dumps_str k ++ key_sep ++ json_dumps item_sep key_sep x ++
             match r with [] => "" | _ => item_sep ++ items r end
         end) kvs ++ "}"
  end.

(** [json.dumps(v, separators=(",", ":"))]: the compact form of every
    outbound action. *)
Definition dumps_compact : json -> string := json_dumps "," ":".

(** [json.dumps(v)] with the default separators, as [react] applies it to
    each event. *)
Definition dumps_default : json -> string := json_dumps ", " ": ".

(** The no-op action on the wire. *)
Definition none_line : string := dumps_compact (JObj [("type", JStr "none")]).

(** ** The symbolic hand listing ([Bot.tehai_mjai]) *)

Definition zi_map : list string := ["E"; "S"; "W"; "N"; "P"; "F"; "C"].

(** The five lists the loop of [tehai_mjai] fills. *)
Record groups : Type := Groups {
  ms : list string;
  ps : list string;
  ss : list string;
  zis : list string;
  akas : list string
}.

(** Truth value of a Python int. *)
Definition truthy (z : Z) : bool := negb (z =? 0)%Z.

(** [[s] * n]: empty for [n <= 0]. *)
Definition py_repeat (s : string) (n : Z) : list string := repeat s (Z.to_nat n).

(** The body of the [for tile_idx, tile_count in enumerate(...)] loop. *)
Definition tehai_mjai_step (g : groups) (tile_idx : nat) (tile_count : Z)
  : result groups :=
  let idx := Z.of_nat tile_idx in
  if truthy tile_count && (tile_idx =? 4)%nat then
    Ok (Groups (ms g) (ps g) (ss g) (zis g) (akas g ++ ["5mr"]))
  else if truthy tile_count && (tile_idx =? 4 + 9)%nat then
    Ok (Groups (ms g) (ps g) (ss g) (zis g) (akas g ++ ["5pr"]))
  else if truthy tile_count && (tile_idx =? 4 + 18)%nat then
    Ok (Groups (ms g) (ps g) (ss g) (zis g) (akas g ++ ["5sr"]))
  else if truthy tile_count && (tile_idx <? 9)%nat then
    Ok (Groups (ms g ++ py_repeat (str_of_int (idx + 1) ++ "m") tile_count)
               (ps g) (ss g) (zis g) (akas g))
  else if truthy tile_count && (tile_idx <? 18)%nat then
    Ok (Groups (ms g)
               (ps g ++ py_repeat (str_of_int (idx - 9 + 1) ++ "p") tile_count)
               (ss g) (zis g) (akas g))
  else if truthy tile_count && (tile_idx <? 27)%nat then
    Ok (Groups (ms g) (ps g)
               (ss g ++ py_repeat (str_of_int (idx - 18 + 1) ++ "s") tile_count)
               (zis g) (akas g))
  else if (0 <? tile_count)%Z then
    (* [for _ in range(tile_count): zis.append(zi_map[tile_idx - 27])];
       this branch is reached with a positive count only from index 27 on *)
    z <- py_getitem zi_map (tile_idx - 27) ;;
    Ok (Groups (ms g) (ps g) (ss g) (zis g ++ py_repeat z tile_count) (akas g))
  else Ok g.

Fixpoint tehai_mjai_loop (g : groups) (tile_idx : nat) (tehai : list Z)
  : result groups :=
  match tehai with
  | [] => Ok g
  | tile_count :: rest =>
      g' <- tehai_mjai_step g tile_idx tile_count ;;
      tehai_mjai_loop g' (S tile_idx) rest
  end.

(** [Bot.tehai_mjai], as a function of [self.player_state.tehai]. *)
Definition tehai_mjai_of (tehai : list Z) : result (list string) :=
  g <- tehai_mjai_loop (Groups [] [] [] [] []) 0 tehai ;;
  Ok (ms g ++ ps g ++ ss g ++ zis g ++ akas g)%list.

(** ** Red-five substitution ([_aka], local to [Bot.find_improving_tiles]) *)

(** [_aka(tile)], as a function of [self.tehai_vec34] and
    [self.akas_in_hand]; [and] evaluates left to right and stops at the
    first false operand. *)
Definition _aka (tehai_vec34 : list Z) (akas_in_hand : list bool)
  (tile : string) : result string :=
  c1 <- (if tile =? "5s" then
           n <- py_getitem tehai_vec34 4 ;;
           if (n =? 1)%Z then py_getitem akas_in_hand 0 else Ok false
         else Ok false) ;;
  if c1 then Ok "5sr" else
  c2 <- (if tile =? "5p" then
           n <- py_getitem tehai_vec34 (4 + 9) ;;
           if (n =? 1)%Z then py_getitem akas_in_hand 1 else Ok false
         else Ok false) ;;
  if c2 then Ok "5pr" else
  c3 <- (if tile =? "5p" then
           n <- py_getitem tehai_vec34 (4 + 18) ;;
           if (n =? 1)%Z then py_getitem akas_in_hand 2 else Ok false
         else Ok false) ;;
  if c3 then Ok "5pr" else
  Ok tile.

Definition docstring_hand : list Z :=
  [1; 1; 0; 0; 0; 1; 0; 0; 1; 1; 0; 1; 1; 0; 0; 0; 0; 0; 0; 0; 1; 1;
   1; 0; 1; 0; 1; 0; 0; 0; 0; 1; 1; 0]%Z.


(** ** The rules engine *)

(** Modelled from the spec: the snapshot [ActionCandidate] of the engine
    ([mjai.mlibriichi.state]), one boolean per action kind and the seat a
    reactive call or win targets. *)
Record ActionCandidate : Type := {
  ac_can_discard : bool;
  ac_can_riichi : bool;
  ac_can_agari : bool;
  ac_can_tsumo_agari : bool;
  ac_can_ron_agari : bool;
  ac_can_ryukyoku : bool;
  ac_can_kakan : bool;
  ac_can_daiminkan : bool;
  ac_can_kan : bool;
  ac_can_ankan : bool;
  ac_can_pon : bool;
  ac_can_chi : bool;
  ac_can_chi_low : bool;
  ac_can_chi_mid : bool;
  ac_can_chi_high : bool;
  ac_can_act : bool;
  ac_can_pass : bool;
  ac_target_actor : Z
}.

(** Modelled from the spec: the engine's [PlayerState], which is not part of
    this module.  It is built from a seat id; [update] takes one event as
    JSON text, changes the state in place and either returns a snapshot or
    rejects the event with a message (an exception deriving from
    [Exception]); the state it leaves behind on a rejection is whatever the
    engine made of it.  The readers do not change the state; the two tile
    readers may be rejected as well. *)
Record Engine : Type := {
  PlayerState : Type;
  ps_new : Z -> PlayerState;
  ps_update : PlayerState -> string -> PlayerState * (string + ActionCandidate);
  ps_last_self_tsumo : PlayerState -> string + string;
  ps_last_kawa_tile : PlayerState -> string + string;
  ps_brief_info : PlayerState -> string;
  ps_tehai : PlayerState -> list Z;
  ps_akas_in_hand : PlayerState -> list bool
}.

(** A call into the engine, seen from Python. *)
Definition engine_call {A : Type} (r : string + A) : result A :=
  match r with
  | inl msg => Raise (Exn EngineError msg)
  | inr a => Ok a
  end.

(** Modelled from the spec: the helpers of [mjai.bot.tools] and the search
    routine of [mjai.mlibriichi.tools], total and free of effects. *)
Record Tools : Type := {
  convert_tehai_vec34_as_tenhou : list Z -> list bool -> string;
  vec34_index_to_mjai_tile : Z -> string;
  ext_find_improving_tiles : string -> list (Z * list Z)
}.

(** ** The standard library at the edge *)

(** [len(v)] on a decoded JSON value. *)
Definition py_len (v : json) : result nat :=
  match v with
  | JArr l => Ok (List.length l)
  | JObj kvs => Ok (List.length kvs)
  | JStr s => Ok (String.length s)
  | JInt _ => Raise (Exn TypeError "object of type 'int' has no len()")
  | JFloat _ => Raise (Exn TypeError "object of type 'float' has no len()")
  | JBool _ => Raise (Exn TypeError "object of type 'bool' has no len()")
  | JNull => Raise (Exn TypeError "object of type 'NoneType' has no len()")
  end.

Fixpoint chars (s : string) : list json :=
  match s with
  | EmptyString => []
  | String c r => JStr (String c EmptyString) :: chars r
  end.

(** What [for event in v] yields, for the values [len] accepts: the items of
    a list, the keys of a dict, the characters of a string. *)
Definition py_iter (v : json) : list json :=
  match v with
  | JArr l => l
  | JObj kvs => map (fun kv => JStr (fst kv)) kvs
  | JStr s => chars s
  | _ => []
  end.

(** [str.isspace] on one character (code points below 256). *)
Definition py_isspace (c : ascii) : bool :=
  let n := nat_of_ascii c in
  ((9 <=? n) && (n <=? 13) || (28 <=? n) && (n <=? 32)
   || (n =? 133) || (n =? 160))%nat.

Fixpoint lstrip (s : string) : string :=
  match s with
  | EmptyString => EmptyString
  | String c r => if py_isspace c then lstrip r else s
  end.

Fixpoint rstrip (s : string) : string :=
  match s with
  | EmptyString => EmptyString
  | String c r =>
      match rstrip r with
      | EmptyString => if py_isspace c then EmptyString else String c EmptyString
      | r' => String c r'
      end
  end.

(** [s.strip()]. *)
Definition py_strip (s : string) : string := rstrip (lstrip s).

(** The newline character, as a string. *)
Definition nl : string := String (ascii_of_nat 10) EmptyString.

(** The standard streams: the lines still to be read, the text written to
    [stdout] by each [write], the lines printed to [stderr]. *)
Record io : Type := IO {
  stdin : list string;
  stdout : list string;
  stderr : list string
}.

(** [sys.stdin.readline()]: the next line, or the empty string once the
    input has ended. *)
Definition readline (inp : list string) : string * list string :=
  match inp with
  | [] => (EmptyString, [])
  | l :: rest => (l, rest)
  end.

(** ** The class [Bot] *)

Section BotClass.

Context {E : Engine}.
Variable T : Tools.

(** [json.loads] on a line: the decoded value, or the message of the
    [JSONDecodeError] it raises. *)
Variable json_loads : string -> string + json.

(** The fields [__init__] sets. *)
Record Bot : Type := mkBot {
  player_id : Z;
  player_state : PlayerState E;
  action_candidate : option ActionCandidate
}.

(** [Bot(player_id)]. *)
Definition Bot_init (pid : Z) : Bot := mkBot pid (ps_new E pid) None.

(** *** action_candidate properties *)

Definition candidate_field {A : Type} (f : ActionCandidate -> A) (b : Bot)
  : result A :=
  ac <- assert_not_None (action_candidate b) ;; Ok (f ac).

Definition can_discard := candidate_field ac_can_discard.
Definition can_riichi := candidate_field ac_can_riichi.
Definition can_agari := candidate_field ac_can_agari.
Definition can_tsumo_agari := candidate_field ac_can_tsumo_agari.
Definition can_ron_agari := candidate_field ac_can_ron_agari.
Definition can_ryukyoku := candidate_field ac_can_ryukyoku.
Definition can_kakan := candidate_field ac_can_kakan.
Definition can_daiminkan := candidate_field ac_can_daiminkan.
Definition can_kan := candidate_field ac_can_kan.
Definition can_ankan := candidate_field ac_can_ankan.
Definition can_pon := candidate_field ac_can_pon.
Definition can_chi := candidate_field ac_can_chi.
Definition can_chi_low := candidate_field ac_can_chi_low.
Definition can_chi_mid := candidate_field ac_can_chi_mid.
Definition can_chi_high := candidate_field ac_can_chi_high.
Definition can_act := candidate_field ac_can_act.
Definition can_pass := candidate_field ac_can_pass.
Definition target_actor := candidate_field ac_target_actor.

(** *** player state properties *)

Definition last_self_tsumo (b : Bot) : result string :=
  engine_call (ps_last_self_tsumo E (player_state b)).

Definition last_kawa_tile (b : Bot) : result string :=
  engine_call (ps_last_kawa_tile E (player_state b)).

Definition tehai_vec34 (b : Bot) : list Z := ps_tehai E (player_state b).

Definition akas_in_hand (b : Bot) : list bool :=
  ps_akas_in_hand E (player_state b).

Definition tehai_mjai (b : Bot) : result (list string) :=
  tehai_mjai_of (ps_tehai E (player_state b)).

Definition tehai_tenhou (b : Bot) : string :=
  convert_tehai_vec34_as_tenhou T
    (ps_tehai E (player_state b)) (ps_akas_in_hand E (player_state b)).

(** *** actions *)

(** The dict [action_discard] serialises. *)
Definition dahai_event (tile_str : string) (actor : Z) (tsumogiri : bool)
  : json :=
  JObj [("type", JStr "dahai"); ("pai", JStr tile_str);
        ("actor", JInt actor); ("tsumogiri", JBool tsumogiri)].

Definition action_discard (b : Bot) (tile_str : string) : result string :=
  last <- engine_call (ps_last_self_tsumo E (player_state b)) ;;
  Ok (dumps_compact (dahai_event tile_str (player_id b) (tile_str =? last))).

Definition action_nothing (b : Bot) : result string :=
  Ok (dumps_compact (JObj [("type", JStr "none")])).

Definition hora_event (actor target : Z) (pai : string) : json :=
  JObj [("type", JStr "hora"); ("actor", JInt actor);
        ("target", JInt target); ("pai", JStr pai)].

Definition action_tsumo_agari (b : Bot) : result string :=
  target <- target_actor b ;;
  pai <- last_self_tsumo b ;;
  Ok (dumps_compact (hora_event (player_id b) target pai)).

Definition action_ron_agari (b : Bot) : result string :=
  target <- target_actor b ;;
  pai <- last_kawa_tile b ;;
  Ok (dumps_compact (hora_event (player_id b) target pai)).

Definition action_riichi (b : Bot) : result string :=
  Ok (dumps_compact (JObj [("type", JStr "reach"); ("actor", JInt (player_id b))])).

(** The default policy: discard the tile just drawn. *)
Definition think (b : Bot) : result string :=
  c <- can_discard b ;;
  if c then
    tile_str <- last_self_tsumo b ;;
    action_discard b tile_str
  else action_nothing b.

(** *** react *)

(** The loop [for event in events: self.action_candidate =
    self.player_state.update(json.dumps(event))].  A rejected event leaves
    [action_candidate] as it was and the state as the engine left it. *)
Fixpoint apply_events (b : Bot) (events : list json) : Bot * result unit :=
  match events with
  | [] => (b, Ok tt)
  | event :: rest =>
      let (ps', r) := ps_update E (player_state b) (dumps_default event) in
      match r with
      | inl msg =>
          (mkBot (player_id b) ps' (action_candidate b),
           Raise (Exn EngineError msg))
      | inr ac => apply_events (mkBot (player_id b) ps' (Some ac)) rest
      end
  end.

(** What the [except] clause prints, one entry per [print]. *)
Definition error_log (b : Bot) (e : exn) : list string :=
  ["===========================================";
   "Exception: " ++ exn_str e;
   "Brief info:";
   ps_brief_info E (player_state b);
   ""].

Section Policy.

(** [self.think], which a subclass may override: a policy reads the bot and
    returns a response or raises. *)
Variable think_impl : Bot -> result string.

(** The body of the [try] block. *)
Definition react_try (b : Bot) (input_str : string) : Bot * result string :=
  match json_loads input_str with
  | inl msg => (b, Raise (Exn JSONDecodeError msg))
  | inr events =>
      match py_len events with
      | Raise e => (b, Raise e)
      | Ok n =>
          if (n =? 0)%nat then (b, Raise (Exn ValueError "Empty events"))
          else
            match apply_events b (py_iter events) with
            | (b', Raise e) => (b', Raise e)
            | (b', Ok _) => (b', think_impl b')
            end
      end
  end.

(** [react]: the bot afterwards, what was printed to [stderr], and the
    response or the exception that leaves the method.  [except Exception]
    handles the classes deriving from [Exception]. *)
Definition react (b : Bot) (input_str : string)
  : Bot * list string * result string :=
  match react_try b input_str with
  | (b', Ok resp) => (b', [], Ok resp)
  | (b', Raise e) =>
      if is_Exception (exn_cls e)
      then (b', error_log b' e, Ok none_line)
      else (b', [], Raise e)
  end.

(** *** start *)

(** Where the [while True] loop is after some iterations: still running, or
    left by an exception. *)
Inductive run : Type :=
| Running (b : Bot) (w : io)
| Aborted (e : exn).

(** One pass through the body of the loop. *)
Definition loop_body (b : Bot) (w : io) : run :=
  let (raw, rest) := readline (stdin w) in
  let line := py_strip raw in
  match react b line with
  | (b', log, Ok resp) =>
      Running b' (IO rest (stdout w ++ [resp ++ nl]) (stderr w ++ log))
  | (_, _, Raise e) => Aborted e
  end.

(** [n] passes. *)
Fixpoint loop (n : nat) (b : Bot) (w : io) : run :=
  match n with
  | O => Running b w
  | S n' =>
      match loop_body b w with
      | Running b' w' => loop n' b' w'
      | Aborted e => Aborted e
      end
  end.


End Policy.

(** *** find_improving_tiles *)

(** Insertion into a list sorted by descending key, after the items whose
    key is larger and before the first one whose key is not. *)
Fixpoint insert_desc {A : Type} (key : A -> nat) (x : A) (l : list A) : list A :=
  match l with
  | [] => [x]
  | y :: r => if (key x <? key y)%nat then y :: insert_desc key x r else x :: l
  end.

(** [sorted(l, key=key, reverse=True)]: a stable sort by descending key. *)
Fixpoint sorted_desc {A : Type} (key : A -> nat) (l : list A) : list A :=
  match l with
  | [] => []
  | x :: r => insert_desc key x (sorted_desc key r)
  end.

Fixpoint mapM {A B : Type} (f : A -> result B) (l : list A) : result (list B) :=
  match l with
  | [] => Ok []
  | x :: r => y <- f x ;; ys <- mapM f r ;; Ok (y :: ys)
  end.

Definition improving_key (c : Z * list Z) : nat := List.length (snd c).

Definition find_improving_tiles (b : Bot)
  : result (list (string * list string)) :=
  let candidates := ext_find_improving_tiles T (tehai_tenhou b) in
  let candidates := sorted_desc improving_key candidates in
  mapM (fun c =>
          d <- _aka (tehai_vec34 b) (akas_in_hand b)
                 (vec34_index_to_mjai_tile T (fst c)) ;;
          Ok (d, map (vec34_index_to_mjai_tile T) (snd c)))
       candidates.

End BotClass.

Arguments Bot E : clear implicits.
Arguments Bot_init E pid : clear implicits.
Arguments run E : clear implicits.

(** ** Fixtures: a scripted engine, a table decoder *)

Module Fixture.

(** A scripted seat: it knows one draw and one foreign discard, and rejects
    every other event without touching its state. *)
Record seat : Type := Seat {
  seat_id : Z;
  applied : list string;
  drawn : option string;
  hand : list Z;
  reds : list bool
}.

Definition tsumo_5m : json :=
  JObj [("type", JStr "tsumo"); ("actor", JInt 0); ("pai", JStr "5m")].

Definition dahai_E : json :=
  JObj [("type", JStr "dahai"); ("actor", JInt 1); ("pai", JStr "E");
        ("tsumogiri", JBool false)].

Definition bogus : json := JObj [("type", JStr "bogus")].

Definition candidate (discard : bool) : ActionCandidate :=
  {| ac_can_discard := discard; ac_can_riichi := false; ac_can_agari := false;
     ac_can_tsumo_agari := false; ac_can_ron_agari := false;
     ac_can_ryukyoku := false; ac_can_kakan := false;
     ac_can_daiminkan := false; ac_can_kan := false; ac_can_ankan := false;
     ac_can_pon := false; ac_can_chi := false; ac_can_chi_low := false;
     ac_can_chi_mid := false; ac_can_chi_high := false;
     ac_can_act := discard; ac_can_pass := false; ac_target_actor := 0 |}.

Definition empty_hand : list Z := repeat 0%Z 34.

Definition seat_update (st : seat) (ev : string)
  : seat * (string + ActionCandidate) :=
  if ev =? dumps_default tsumo_5m then
    (Seat (seat_id st) (applied st ++ [ev]) (Some "5m") (hand st) (reds st),
     inr (candidate true))
  else if ev =? dumps_default dahai_E then
    (Seat (seat_id st) (applied st ++ [ev]) (drawn st) (hand st) (reds st),
     inr (candidate false))
  else (st, inl "rejected event").

Definition engine : Engine := {|
  PlayerState := seat;
  ps_new := fun pid => Seat pid [] None empty_hand [false; false; false];
  ps_update := seat_update;
  ps_last_self_tsumo := fun st =>
    match drawn st with Some t => inr t | None => inl "no self draw" end;
  ps_last_kawa_tile := fun _ => inl "no discard";
  ps_brief_info := fun st => "seat " ++ str_of_int (seat_id st);
  ps_tehai := hand;
  ps_akas_in_hand := reds
|}.

(** The lines the examples feed to [react]. *)
Definition lines : list json :=
  [JArr []; JArr [tsumo_5m]; JArr [dahai_E]; JArr [tsumo_5m; bogus; dahai_E]].

(** A decoder that inverts the compact form on [lines] and reports
    everything else, the empty line included, as undecodable. *)
Definition loads (s : string) : string + json :=
  match find (fun v => s =? dumps_compact v) lines with
  | Some v => inr v
  | None => inl "Expecting value: line 1 column 1 (char 0)"
  end.

Definition tile_names : list string :=
  ["1m"; "2m"; "3m"; "4m"; "5m"; "6m"; "7m"; "8m"; "9m";
   "1p"; "2p"; "3p"; "4p"; "5p"; "6p"; "7p"; "8p"; "9p";
   "1s"; "2s"; "3s"; "4s"; "5s"; "6s"; "7s"; "8s"; "9s";
   "E"; "S"; "W"; "N"; "P"; "F"; "C"].

(** A search double: three candidates, two of them tied. *)
Definition tools : Tools := {|
  convert_tehai_vec34_as_tenhou := fun _ _ => "";
  vec34_index_to_mjai_tile := fun i => nth (Z.to_nat i) tile_names "?";
  ext_find_improving_tiles := fun _ =>
    [(0, [1; 2]); (13, [3; 4; 5]); (8, [6; 7])]%Z
|}.

(** A seat that has drawn 5m and may discard. *)
Definition after_draw : Bot engine :=
  mkBot (E:=engine) 0 (Seat 0 [dumps_default tsumo_5m] (Some "5m") empty_hand
             [false; false; false])
        (Some (candidate true)).

(** A seat that has seen a discard it cannot react to. *)
Definition after_foreign_discard : Bot engine :=
  mkBot (E:=engine) 2 (Seat 2 [dumps_default dahai_E] None empty_hand
             [false; false; false])
        (Some (candidate false)).

End Fixture.

(** ** Vocabulary of the statements *)

Definition sum_counts (tehai : list Z) : Z := fold_right Z.add 0%Z tehai.

(** A hand holding two tiles, both in the five-slot of suit m. *)
Definition two_fives_m : list Z :=
  (repeat 0%Z 4 ++ [2%Z] ++ repeat 0%Z 29)%list.

(** A hand holding exactly one tile in the five-slot at index [i]. *)
Definition one_five (i : nat) : list Z :=
  (repeat 0%Z i ++ [1%Z] ++ repeat 0%Z (33 - i))%list.

Section Vocabulary.

Context {E : Engine}.

(** The state after the engine has been fed [events], one by one. *)
Definition ps_after (ps : PlayerState E) (events : list json) : PlayerState E :=
  fold_left (fun s ev => fst (ps_update E s (dumps_default ev))) events ps.

(** Every event of [events] is accepted, each on the state its predecessors
    left. *)
Fixpoint accepted (ps : PlayerState E) (events : list json) : Prop :=
  match events with
  | [] => True
  | ev :: rest =>
      match ps_update E ps (dumps_default ev) with
      | (ps', inr _) => accepted ps' rest
      | (_, inl _) => False
      end
  end.

(** The snapshot of the last accepted event, [old] when there is none. *)
Fixpoint last_snapshot (old : option ActionCandidate) (ps : PlayerState E)
  (events : list json) : option ActionCandidate :=
  match events with
  | [] => old
  | ev :: rest =>
      match ps_update E ps (dumps_default ev) with
      | (ps', inr ac) => last_snapshot (Some ac) ps' rest
      | (_, inl _) => old
      end
  end.


End Vocabulary.

(** [x] ranks at least as high as [y]. *)
Definition at_least {A : Type} (key : A -> nat) (x y : A) : Prop :=
  key y <= key x.

Definition with_key {A : Type} (key : A -> nat) (k : nat) (x : A) : bool :=
  (key x =? k)%nat.

(** The line that carries the draw of 5m, and the line whose second event
    the scripted engine rejects. *)
Definition draw_line : string := dumps_compact (JArr [Fixture.tsumo_5m]).

Definition broken_line : string :=
  dumps_compact (JArr [Fixture.tsumo_5m; Fixture.bogus; Fixture.dahai_E]).

(** A policy that leaves through [sys.exit]. *)
Definition exiting_policy (b : Bot Fixture.engine) : result string :=
  Raise (Exn SystemExit "1").

(** A policy that reads a legality flag of a bot that has no snapshot. *)
Definition careless_policy (b : Bot Fixture.engine) : result string :=
  c <- can_riichi (Bot_init Fixture.engine (player_id b)) ;;
  if c then action_riichi b else action_nothing b.

(** *** Vocabulary of the further properties *)

(** The three slots of the count vector that hold the fives. *)
Definition five_slot (i : nat) : bool :=
  ((i =? 4) || (i =? 4 + 9) || (i =? 4 + 18))%nat.

(** The symbol [tehai_mjai] writes for a tile of slot [i] that is not a
    five. *)
Definition tile_symbol (i : nat) : string :=
  if (i <? 9)%nat then str_of_int (Z.of_nat i + 1) ++ "m"
  else if (i <? 18)%nat then str_of_int (Z.of_nat i - 9 + 1) ++ "p"
  else if (i <? 27)%nat then str_of_int (Z.of_nat i - 18 + 1) ++ "s"
  else nth (i - 27) zi_map "".

(** The symbol it writes for a five-slot. *)
Definition red_symbol (i : nat) : string :=
  if (i =? 4)%nat then "5mr" else if (i =? 4 + 9)%nat then "5pr" else "5sr".

(** The plain symbols of the slots from [i] on, slot by slot. *)
Fixpoint plain_listing (i : nat) (tehai : list Z) : list string :=
  match tehai with
  | [] => []
  | c :: rest =>
      ((if five_slot i then [] else repeat (tile_symbol i) (Z.to_nat c))
       ++ plain_listing (S i) rest)%list
  end.

(** One red symbol for each five-slot from [i] on whose count is not zero. *)
Fixpoint red_listing (i : nat) (tehai : list Z) : list string :=
  match tehai with
  | [] => []
  | c :: rest =>
      ((if five_slot i && truthy c then [red_symbol i] else [])
       ++ red_listing (S i) rest)%list
  end.

(** The tiles of the five-slots from [i] on that the listing leaves out: all
    but one of each slot. *)
Fixpoint five_excess (i : nat) (tehai : list Z) : Z :=
  match tehai with
  | [] => 0%Z
  | c :: rest =>
      ((if five_slot i then Z.max 0 (c - 1) else 0) + five_excess (S i) rest)%Z
  end.

(** The symbols of a five, plain and red. *)
Definition five_symbols : list string :=
  ["5m"; "5p"; "5s"; "5mr"; "5pr"; "5sr"].

(** The groups that follow the group of slot [i] are still empty. *)
Definition groups_ahead_empty (i : nat) (g : groups) : Prop :=
  (i <= 9 -> ps g = [])
  /\ (i <= 18 -> ss g = [])
  /\ (i <= 27 -> zis g = []).

(** A decoded value that is neither a list, a dict nor a string. *)
Definition is_scalar (v : json) : bool :=
  match v with
  | JNull | JBool _ | JInt _ | JFloat _ => true
  | _ => false
  end.

(** A character from the space to the tilde. *)
Definition printable_char (c : ascii) : bool :=
  ((32 <=? nat_of_ascii c) && (nat_of_ascii c <=? 126))%nat.

Fixpoint printable (s : string) : bool :=
  match s with
  | EmptyString => true
  | String c r => printable_char c && printable r
  end.

Fixpoint all_space (s : string) : bool :=
  match s with
  | EmptyString => true
  | String c r => py_isspace c && all_space r
  end.

(** More lines for the examples: a number, an event object outside any
    list, the list of its keys, and two lists of one event. *)
Definition sample_lines : list json :=
  [JInt 5; JObj [("type", JStr "tsumo")]; JArr [JStr "type"];
   JArr [Fixture.tsumo_5m]; JArr [Fixture.dahai_E]].

(** A decoder that inverts the compact form on [sample_lines]. *)
Definition sample_loads (s : string) : string + json :=
  match find (fun v => s =? dumps_compact v) sample_lines with
  | Some v => inr v
  | None => inl "Expecting value: line 1 column 1 (char 0)"
  end.

(** Case analysis on the index and count tests of a goal. *)
Ltac split_tests :=
  repeat match goal with
         | |- context [Nat.eqb ?a ?b] => destruct (Nat.eqb_spec a b)
         | |- context [Nat.ltb ?a ?b] => destruct (Nat.ltb_spec a b)
         | |- context [Z.ltb ?a ?b] => destruct (Z.ltb_spec a b)
         end.

(** A search double whose pairs come ranked. *)
Definition ranked_tools : Tools := {|
  convert_tehai_vec34_as_tenhou := fun _ _ => "";
  vec34_index_to_mjai_tile := fun i => nth (Z.to_nat i) Fixture.tile_names "?";
  ext_find_improving_tiles := fun _ =>
    [(13, [3; 4; 5]); (0, [1; 2]); (8, [6; 7])]%Z
|}.

(** ** The hand listing and the red-five substitution *)


(** C3: [tehai_mjai] on the hand of its own docstring, which holds one 5s and
    no red five, lists thirteen plain tiles followed by "5sr" where the
    docstring shows "5s" between "4s" and "7s"; on a hand of two tiles in the
    five-slot of suit m it lists the single symbol "5mr", so the length is
    one while the counts sum to two.  The red-five flags are not an input of
    the listing. *)
Theorem tehai_mjai_five_slots :
  tehai_mjai_of docstring_hand
  = Ok ["1m"; "2m"; "6m"; "9m"; "1p"; "3p"; "4p"; "3s"; "4s"; "7s"; "9s";
        "P"; "F"; "5sr"]
  /\ sum_counts docstring_hand = 14%Z
  /\ tehai_mjai_of two_fives_m = Ok ["5mr"]
  /\ sum_counts two_fives_m = 2%Z.
Proof. repeat split; vm_compute; reflexivity. Qed.

(** C4: [_aka] leaves "5m" as it is for every hand and every flags, also
    with one tile in the five-slot of suit m and the flag of suit m set; it
    leaves "5s" as it is when the five-slot and the flag of suit s say red;
    and it turns "5s" into "5sr" on the slot and the flag of suit m. *)
Theorem aka_suit_slots :
  (forall tehai flags, _aka tehai flags "5m" = Ok "5m")
  /\ _aka (one_five 4) [true; false; false] "5m" = Ok "5m"
  /\ _aka (one_five 22) [false; false; true] "5s" = Ok "5s"
  /\ _aka (one_five 4) [true; false; false] "5s" = Ok "5sr"
  /\ _aka (one_five 13) [false; true; false] "5p" = Ok "5pr".
Proof. repeat split; vm_compute; reflexivity. Qed.

(** ** Accessors and the default policy *)

Section Accessors.

Context {E : Engine}.

Lemma candidate_field_None {A : Type} (f : ActionCandidate -> A) (b : Bot E) :
  action_candidate b = None ->
  candidate_field f b = Raise (Exn AssertionError "").
Proof. unfold candidate_field; intros ->; reflexivity. Qed.

Lemma candidate_field_Some {A : Type} (f : ActionCandidate -> A) (b : Bot E) ac :
  action_candidate b = Some ac -> candidate_field f b = Ok (f ac).
Proof. unfold candidate_field; intros ->; reflexivity. Qed.

(** C6: with no snapshot yet, each of the eighteen accessors raises
    [AssertionError]; none returns a value, and the exception is not the one
    an engine rejection raises. *)
Theorem accessors_need_snapshot (b : Bot E) :
  action_candidate b = None ->
  let failed := Exn AssertionError "" in
  can_discard b = Raise failed /\ can_riichi b = Raise failed
  /\ can_agari b = Raise failed /\ can_tsumo_agari b = Raise failed
  /\ can_ron_agari b = Raise failed /\ can_ryukyoku b = Raise failed
  /\ can_kakan b = Raise failed /\ can_daiminkan b = Raise failed
  /\ can_kan b = Raise failed /\ can_ankan b = Raise failed
  /\ can_pon b = Raise failed /\ can_chi b = Raise failed
  /\ can_chi_low b = Raise failed /\ can_chi_mid b = Raise failed
  /\ can_chi_high b = Raise failed /\ can_act b = Raise failed
  /\ can_pass b = Raise failed /\ target_actor b = Raise failed
  /\ (forall msg, engine_call (A:=bool) (inl msg) <> Raise failed).
Proof.
  intros H failed.
  repeat (split; [now apply candidate_field_None|]).
  intros msg; unfold engine_call, failed; intros Heq; discriminate Heq.
Qed.

Lemma append_assoc (a b c : string) : (a ++ b) ++ c = a ++ (b ++ c).
Proof. induction a as [|x a IH]; cbn; [reflexivity | now rewrite IH]. Qed.

Lemma dahai_wire (tile_str : string) (actor : Z) (flag : bool) :
  dumps_compact (dahai_event tile_str actor flag)
  = "{" ++ dq ++ "type" ++ dq ++ ":" ++ dq ++ "dahai" ++ dq ++ ","
    ++ dq ++ "pai" ++ dq ++ ":" ++ dq ++ escape_string tile_str ++ dq ++ ","
    ++ dq ++ "actor" ++ dq ++ ":" ++ str_of_int actor ++ ","
    ++ dq ++ "tsumogiri" ++ dq ++ ":" ++ (if flag then "true" else "false")
    ++ "}".
Proof.
  unfold dumps_compact, dahai_event; cbn [json_dumps].
  unfold dumps_str. generalize (escape_string tile_str) (str_of_int actor).
  intros pai who; destruct flag; rewrite ?append_assoc; vm_compute;
    reflexivity.
Qed.


End Accessors.

Lemma accessors_need_snapshot_witness :
  action_candidate (Bot_init Fixture.engine 0) = None
  /\ can_discard (Bot_init Fixture.engine 0) = Raise (Exn AssertionError "")
  /\ target_actor (Bot_init Fixture.engine 0) = Raise (Exn AssertionError "").
Proof.
  split; [reflexivity|].
  pose proof (accessors_need_snapshot (Bot_init Fixture.engine 0) eq_refl) as H.
  cbv zeta in H. split; [apply H | apply H].
Defined.


(** ** The reactive step *)

Section React.

Context {E : Engine}.
Variable json_loads : string -> string + json.


Lemma apply_events_accepted (events : list json) : forall b : Bot E,
  accepted (player_state b) events ->
  apply_events b events
  = (mkBot (player_id b) (ps_after (player_state b) events)
       (last_snapshot (action_candidate b) (player_state b) events), Ok tt).
Proof.
  induction events as [|ev rest IH]; intros b Hacc.
  - destruct b; reflexivity.
  - cbn in *. unfold ps_after; cbn.
    destruct (ps_update E (player_state b) (dumps_default ev)) as [ps' [msg|ac]];
      [contradiction|].
    rewrite (IH (mkBot (player_id b) ps' (Some ac)) Hacc); reflexivity.
Qed.

Lemma apply_events_rejected (pre : list json) ev post ps' msg : forall b : Bot E,
  accepted (player_state b) pre ->
  ps_update E (ps_after (player_state b) pre) (dumps_default ev) = (ps', inl msg) ->
  apply_events b (pre ++ ev :: post)
  = (mkBot (player_id b) ps'
       (last_snapshot (action_candidate b) (player_state b) pre),
     Raise (Exn EngineError msg)).
Proof.
  induction pre as [|e pre IH]; intros b Hacc Hrej; cbn in *.
  - rewrite Hrej; reflexivity.
  - unfold ps_after in Hrej; cbn in Hrej.
    destruct (ps_update E (player_state b) (dumps_default e)) as [ps1 [m|ac]];
      [contradiction|].
    rewrite (IH (mkBot (player_id b) ps1 (Some ac)) Hacc Hrej); reflexivity.
Qed.

Lemma last_snapshot_snoc (pre : list json) e : forall old (ps : PlayerState E),
  accepted ps (pre ++ [e]) ->
  exists ac,
    snd (ps_update E (ps_after ps pre) (dumps_default e)) = inr ac
    /\ last_snapshot old ps (pre ++ [e]) = Some ac.
Proof.
  induction pre as [|x pre IH]; intros old ps Hacc; cbn in *.
  - destruct (ps_update E ps (dumps_default e)) as [ps1 [m|ac]];
      [contradiction|]. exists ac; split; reflexivity.
  - unfold ps_after; cbn.
    destruct (ps_update E ps (dumps_default x)) as [ps1 [m|ac]];
      [contradiction|]. exact (IH (Some ac) ps1 Hacc).
Qed.

Lemma apply_events_raises (events : list json) : forall (b b' : Bot E) e,
  apply_events b events = (b', Raise e) -> exn_cls e = EngineError.
Proof.
  induction events as [|ev rest IH]; intros b b' e H; cbn in H.
  - discriminate H.
  - destruct (ps_update E (player_state b) (dumps_default ev)) as [ps' [msg|ac]].
    + injection H as _ <-; reflexivity.
    + exact (IH _ _ _ H).
Qed.

Lemma think_raises (b : Bot E) e :
  think b = Raise e -> is_Exception (exn_cls e) = true.
Proof.
  unfold think, can_discard, candidate_field, last_self_tsumo, action_discard,
    action_nothing.
  destruct (action_candidate b) as [ac|]; cbn.
  - destruct (ac_can_discard ac); [|discriminate].
    destruct (ps_last_self_tsumo E (player_state b)) as [msg|t]; cbn.
    + intros H; injection H as <-; reflexivity.
    + discriminate.
  - intros H; injection H as <-; reflexivity.
Qed.

(** An exception of the [try] block comes from the decoder, from [len], from
    the empty-batch check, from the engine, or from the policy. *)
Lemma react_try_raises (think_impl : Bot E -> result string) b input b' e :
  react_try json_loads think_impl b input = (b', Raise e) ->
  is_Exception (exn_cls e) = true \/ think_impl b' = Raise e.
Proof.
  unfold react_try.
  destruct (json_loads input) as [msg|events].
  - intros H; injection H as _ <-; left; reflexivity.
  - destruct (py_len events) as [n|e0] eqn:Hlen.
    + destruct (n =? 0)%nat.
      * intros H; injection H as _ <-; left; reflexivity.
      * destruct (apply_events b (py_iter events)) as [b1 [u|e1]] eqn:Happ.
        -- intros H. assert (b1 = b') as -> by congruence.
           right; congruence.
        -- intros H; injection H as _ <-.
           left; now rewrite (apply_events_raises _ _ _ _ Happ).
    + intros H; injection H as _ <-.
      destruct events; cbn in Hlen; try discriminate Hlen;
        injection Hlen as <-; left; reflexivity.
Qed.

(** C2: under the default policy [react] returns a response for every input
    line and never raises.  Whatever fails inside the [try] block ends in
    the five-entry log, brief info included, and the none event; so do, in
    particular, a line that does not decode and a line that decodes to an
    empty list. *)
Theorem react_one_response (b : Bot E) (input : string) :
  (exists b' log resp, react json_loads think b input = (b', log, Ok resp))
  /\ (forall b' e,
        react_try json_loads think b input = (b', Raise e) ->
        react json_loads think b input
        = (b', ["===========================================";
                "Exception: " ++ exn_str e; "Brief info:";
                ps_brief_info E (player_state b'); ""], Ok none_line))
  /\ (forall msg,
        json_loads input = inl msg ->
        react json_loads think b input
        = (b, error_log b (Exn JSONDecodeError msg), Ok none_line))
  /\ (json_loads input = inr (JArr []) ->
      react json_loads think b input
      = (b, error_log b (Exn ValueError "Empty events"), Ok none_line)).
Proof.
  assert (Hcatch : forall b' e,
             react_try json_loads think b input = (b', Raise e) ->
             react json_loads think b input
             = (b', error_log b' e, Ok none_line)).
  { intros b' e H. unfold react; rewrite H.
    destruct (react_try_raises _ _ _ _ _ H) as [-> | Ht]; [reflexivity|].
    now rewrite (think_raises _ _ Ht). }
  repeat split.
  - destruct (react_try json_loads think b input) as [b' [resp|e]] eqn:H.
    + exists b', [], resp. unfold react; rewrite H; reflexivity.
    + exists b', (error_log b' e), none_line. exact (Hcatch _ _ eq_refl).
  - exact Hcatch.
  - intros msg H. apply Hcatch. unfold react_try; rewrite H; reflexivity.
  - intros H. apply Hcatch. unfold react_try; rewrite H; reflexivity.
Qed.

(** C8, as the code has it: whatever the policy, an exception leaves
    [react] only if its class does not derive from [Exception], and then it
    is the policy that raised it; every exception deriving from [Exception]
    raised in the [try] block, an [AssertionError] of the policy included,
    becomes the none event; and with a policy that raises only such
    exceptions [react] always returns a response. *)
Theorem react_catches_Exception (think_impl : Bot E -> result string)
  (b : Bot E) (input : string) :
  (forall b' log e,
     react json_loads think_impl b input = (b', log, Raise e) ->
     is_Exception (exn_cls e) = false /\ think_impl b' = Raise e)
  /\ (forall b' e,
        react_try json_loads think_impl b input = (b', Raise e) ->
        is_Exception (exn_cls e) = true ->
        react json_loads think_impl b input
        = (b', error_log b' e, Ok none_line))
  /\ (forall b' msg,
        react_try json_loads think_impl b input
        = (b', Raise (Exn AssertionError msg)) ->
        snd (react json_loads think_impl b input) = Ok none_line)
  /\ ((forall b1 e, think_impl b1 = Raise e -> is_Exception (exn_cls e) = true) ->
      exists b' log resp,
        react json_loads think_impl b input = (b', log, Ok resp)).
Proof.
  split; [|split; [|split]].
  - intros b' log e H. unfold react in H.
    destruct (react_try json_loads think_impl b input) as [b1 [r|e1]] eqn:Ht;
      [discriminate H|].
    destruct (is_Exception (exn_cls e1)) eqn:Hc; [discriminate H|].
    assert (b1 = b') as -> by congruence. assert (e1 = e) as -> by congruence.
    split; [exact Hc|].
    destruct (react_try_raises _ _ _ _ _ Ht) as [Hx | Hx];
      [congruence | exact Hx].
  - intros b' e H Hc. unfold react; rewrite H, Hc; reflexivity.
  - intros b' msg H. unfold react; rewrite H; reflexivity.
  - intros Hpol.
    destruct (react_try json_loads think_impl b input) as [b' [resp|e]] eqn:H.
    + exists b', [], resp. unfold react; rewrite H; reflexivity.
    + exists b', (error_log b' e), none_line. unfold react; rewrite H.
      destruct (react_try_raises _ _ _ _ _ H) as [-> | Ht]; [reflexivity|].
      now rewrite (Hpol _ _ Ht).
Qed.

(** C9: when the events before [ev] are accepted and [ev] is rejected,
    [react] answers the none event, the state is the one the engine left
    after the accepted events and the rejected one, and [action_candidate]
    is the snapshot of the last accepted event of the line, or the previous
    one when the first event is the one rejected. *)
Theorem react_not_atomic (think_impl : Bot E -> result string) (b : Bot E)
  (input : string) (pre : list json) (ev : json) (post : list json)
  (ps' : PlayerState E) (msg : string) :
  json_loads input = inr (JArr (pre ++ ev :: post)) ->
  accepted (player_state b) pre ->
  ps_update E (ps_after (player_state b) pre) (dumps_default ev) = (ps', inl msg) ->
  let snapshot := last_snapshot (action_candidate b) (player_state b) pre in
  let b' := mkBot (player_id b) ps' snapshot in
  react json_loads think_impl b input
  = (b', error_log b' (Exn EngineError msg), Ok none_line)
  /\ (pre = [] -> snapshot = action_candidate b)
  /\ (forall pre0 e, pre = (pre0 ++ [e])%list ->
        exists ac,
          snd (ps_update E (ps_after (player_state b) pre0) (dumps_default e))
          = inr ac
          /\ snapshot = Some ac /\ can_discard b' = Ok (ac_can_discard ac))
  /\ (ps' = ps_after (player_state b) pre ->
      player_state b' = ps_after (player_state b) pre).
Proof.
  intros Hload Hacc Hrej snapshot b'. repeat split.
  - unfold react, react_try. rewrite Hload. cbn [py_len py_iter].
    replace (List.length (pre ++ ev :: post) =? 0)%nat with false
      by (symmetry; apply Nat.eqb_neq; rewrite length_app; cbn; lia).
    rewrite (apply_events_rejected pre ev post ps' msg b Hacc Hrej).
    reflexivity.
  - intros ->; reflexivity.
  - intros pre0 e ->.
    destruct (last_snapshot_snoc pre0 e (action_candidate b) (player_state b) Hacc)
      as (ac & H1 & H2).
    exists ac. split; [exact H1|]. split; [exact H2|].
    unfold can_discard, candidate_field, b'; cbn [action_candidate].
    unfold snapshot; rewrite H2; reflexivity.
  - intros ->; reflexivity.
Qed.

End React.


Lemma react_one_response_witness :
  let b := Bot_init Fixture.engine 0 in
  Fixture.loads "not json" = inl "Expecting value: line 1 column 1 (char 0)"
  /\ react Fixture.loads think b "not json"
     = (b, error_log b (Exn JSONDecodeError
                          "Expecting value: line 1 column 1 (char 0)"),
        Ok none_line)
  /\ Fixture.loads "[]" = inr (JArr [])
  /\ react Fixture.loads think b "[]"
     = (b, error_log b (Exn ValueError "Empty events"), Ok none_line).
Proof.
  intros b.
  destruct (react_one_response Fixture.loads b "not json") as (_ & _ & H1 & _).
  destruct (react_one_response Fixture.loads b "[]") as (_ & _ & _ & H2).
  split; [reflexivity|]. split; [apply H1; reflexivity|].
  split; [reflexivity|]. apply H2; reflexivity.
Defined.


(** C8 as stated fails: the draw line is decoded and applied, the policy
    raises [SystemExit], and [react] lets it through. *)
Lemma react_propagates_SystemExit :
  react Fixture.loads exiting_policy (Bot_init Fixture.engine 0) draw_line
  = (Fixture.after_draw, [], Raise (Exn SystemExit "1")).
Proof. vm_compute; reflexivity. Qed.

Lemma react_catches_Exception_witness :
  react_try Fixture.loads careless_policy (Bot_init Fixture.engine 0) draw_line
  = (Fixture.after_draw, Raise (Exn AssertionError ""))
  /\ react Fixture.loads careless_policy (Bot_init Fixture.engine 0) draw_line
     = (Fixture.after_draw,
        error_log Fixture.after_draw (Exn AssertionError ""), Ok none_line).
Proof.
  split; [vm_compute; reflexivity|].
  apply (proj1 (proj2 (react_catches_Exception Fixture.loads careless_policy
                         (Bot_init Fixture.engine 0) draw_line)));
    vm_compute; reflexivity.
Defined.

Lemma react_not_atomic_witness :
  let b := Bot_init Fixture.engine 0 in
  react Fixture.loads think b broken_line
  = (Fixture.after_draw,
     error_log Fixture.after_draw (Exn EngineError "rejected event"),
     Ok none_line)
  /\ player_state Fixture.after_draw <> player_state b
  /\ can_discard Fixture.after_draw = Ok true.
Proof.
  intros b. split; [|split; [discriminate | reflexivity]].
  refine (proj1 (react_not_atomic Fixture.loads think b broken_line
                   [Fixture.tsumo_5m] Fixture.bogus [Fixture.dahai_E]
                   (player_state Fixture.after_draw) "rejected event"
                   _ _ _)).
  - vm_compute; reflexivity.
  - vm_compute; exact I.
  - vm_compute; reflexivity.
Defined.

(** ** The loop of [start] *)

Section Start.

Context {E : Engine}.
Variable json_loads : string -> string + json.














End Start.




(** ** The ranking of [find_improving_tiles] *)

Section Ranking.

Variable A : Type.
Variable key : A -> nat.


Lemma insert_desc_perm (x : A) (l : list A) :
  Permutation (insert_desc key x l) (x :: l).
Proof.
  induction l as [|y r IH]; cbn [insert_desc]; [apply Permutation_refl|].
  destruct (key x <? key y)%nat; [|apply Permutation_refl].
  eapply perm_trans; [apply perm_skip, IH | apply perm_swap].
Qed.

Lemma sorted_desc_perm (l : list A) : Permutation (sorted_desc key l) l.
Proof.
  induction l as [|x r IH]; cbn; [constructor|].
  eapply perm_trans; [apply insert_desc_perm | now apply perm_skip].
Qed.

Lemma insert_desc_sorted (x : A) (l : list A) :
  StronglySorted (at_least key) l ->
  StronglySorted (at_least key) (insert_desc key x l).
Proof.
  induction 1 as [|y r Hs IH Hall]; cbn [insert_desc].
  - repeat constructor.
  - destruct (key x <? key y)%nat eqn:Hlt.
    + constructor; [exact IH|].
      apply (Permutation_Forall (Permutation_sym (insert_desc_perm x r))).
      constructor; [|exact Hall].
      apply Nat.ltb_lt in Hlt; unfold at_least; lia.
    + apply Nat.ltb_ge in Hlt.
      constructor; [constructor; assumption|].
      constructor; [exact Hlt|].
      eapply Forall_impl; [|exact Hall].
      unfold at_least; intros z Hz; lia.
Qed.

Lemma sorted_desc_sorted (l : list A) :
  StronglySorted (at_least key) (sorted_desc key l).
Proof.
  induction l as [|x r IH]; cbn; [constructor | now apply insert_desc_sorted].
Qed.


Lemma insert_desc_filter (k : nat) (x : A) (l : list A) :
  filter (with_key key k) (insert_desc key x l)
  = filter (with_key key k) (x :: l).
Proof.
  induction l as [|y r IH]; [reflexivity|].
  cbn [insert_desc]. destruct (key x <? key y)%nat eqn:Hlt; [|reflexivity].
  apply Nat.ltb_lt in Hlt.
  cbn [filter] in *. rewrite IH. unfold with_key.
  destruct (key x =? k)%nat eqn:Hx; destruct (key y =? k)%nat eqn:Hy;
    try reflexivity.
  apply Nat.eqb_eq in Hx, Hy; lia.
Qed.

(** The sort is stable: the items of one key come out in the order they
    went in. *)
Lemma sorted_desc_stable (k : nat) (l : list A) :
  filter (with_key key k) (sorted_desc key l) = filter (with_key key k) l.
Proof.
  induction l as [|x r IH]; [reflexivity|].
  cbn [sorted_desc]. rewrite insert_desc_filter. cbn [filter].
  now rewrite IH.
Qed.

End Ranking.


Lemma py_getitem_in_range {A : Type} (l : list A) (i : nat) :
  i < List.length l -> exists a, py_getitem l i = Ok a.
Proof.
  intros H. unfold py_getitem.
  destruct (nth_error l i) as [a|] eqn:Hn; [now exists a|].
  apply nth_error_None in Hn; lia.
Qed.

(** On the engine's 34 counts and 3 flags [_aka] reads within range. *)
Lemma aka_returns (tehai : list Z) (flags : list bool) (tile : string) :
  List.length tehai = 34 -> List.length flags = 3 ->
  exists s, _aka tehai flags tile = Ok s.
Proof.
  intros Ht Hf. unfold _aka.
  destruct (py_getitem_in_range tehai 4 ltac:(lia)) as [n1 ->].
  destruct (py_getitem_in_range tehai (4 + 9) ltac:(lia)) as [n2 ->].
  destruct (py_getitem_in_range tehai (4 + 18) ltac:(lia)) as [n3 ->].
  destruct (py_getitem_in_range flags 0 ltac:(lia)) as [f1 ->].
  destruct (py_getitem_in_range flags 1 ltac:(lia)) as [f2 ->].
  destruct (py_getitem_in_range flags 2 ltac:(lia)) as [f3 ->].
  repeat match goal with
         | |- context [if ?c then _ else _] => destruct c; cbn [bind]
         end; eexists; reflexivity.
Qed.

Lemma mapM_returns {A B : Type} (f : A -> result B) (l : list A) :
  (forall x, In x l -> exists y, f x = Ok y) ->
  exists out, mapM f l = Ok out /\ Forall2 (fun y x => f x = Ok y) out l.
Proof.
  induction l as [|x r IH]; intros H; cbn.
  - exists []; split; [reflexivity | constructor].
  - destruct (H x (or_introl eq_refl)) as [y Hy].
    destruct IH as (ys & Hys & Hall); [intros z Hz; apply H; now right|].
    rewrite Hy, Hys; cbn. exists (y :: ys). split; [reflexivity|].
    constructor; assumption.
Qed.

Lemma Forall2_sorted {A B : Type} (P : B -> A -> Prop) (f : B -> nat)
  (g : A -> nat) (out : list B) (l : list A) :
  (forall y x, P y x -> f y = g x) ->
  Forall2 P out l ->
  StronglySorted (at_least g) l -> StronglySorted (at_least f) out.
Proof.
  intros Hfg Hall. induction Hall as [|y x out l Hyx Hall IH]; intros Hs.
  - constructor.
  - inversion Hs as [|? ? Hs' Hle]; subst.
    constructor; [exact (IH Hs')|].
    clear IH Hs Hs'. induction Hall as [|y' x' out l Hyx' Hall IH].
    + constructor.
    + inversion Hle; subst. constructor; [|now apply IH].
      unfold at_least in *. rewrite (Hfg _ _ Hyx), (Hfg _ _ Hyx'). assumption.
Qed.

Section Improving.

Context {E : Engine}.
Variable T : Tools.

(** C7: on a hand of 34 counts and 3 flags [find_improving_tiles] returns,
    in this order, the translation of the search routine's pairs ranked by
    descending number of improving tiles, pairs with the same number staying
    in the order the routine gave them. *)
Theorem find_improving_tiles_ranked (b : Bot E) :
  List.length (tehai_vec34 b) = 34 ->
  List.length (akas_in_hand b) = 3 ->
  let found := ext_find_improving_tiles T (tehai_tenhou T b) in
  let name := vec34_index_to_mjai_tile T in
  exists out ranked,
    find_improving_tiles T b = Ok out
    /\ Permutation ranked found
    /\ StronglySorted (at_least improving_key) ranked
    /\ (forall k, filter (with_key improving_key k) ranked
                  = filter (with_key improving_key k) found)
    /\ Forall2 (fun o c =>
                  _aka (tehai_vec34 b) (akas_in_hand b) (name (fst c))
                  = Ok (fst o)
                  /\ snd o = map name (snd c)) out ranked
    /\ StronglySorted (at_least (fun o => List.length (snd o))) out.
Proof.
  intros Ht Hf found name.
  set (conv := fun c : Z * list Z =>
                 d <- _aka (tehai_vec34 b) (akas_in_hand b) (name (fst c)) ;;
                 Ok (d, map name (snd c))).
  destruct (mapM_returns conv (sorted_desc improving_key found))
    as (out & Hout & Hall).
  { intros c _. unfold conv.
    destruct (aka_returns _ _ (name (fst c)) Ht Hf) as [s ->].
    eexists; reflexivity. }
  assert (Hall' : Forall2 (fun o c =>
                     _aka (tehai_vec34 b) (akas_in_hand b) (name (fst c))
                     = Ok (fst o)
                     /\ snd o = map name (snd c)) out
                    (sorted_desc improving_key found)).
  { eapply Forall2_impl; [|exact Hall]. intros o c Hc. unfold conv in Hc.
    destruct (_aka (tehai_vec34 b) (akas_in_hand b) (name (fst c))) as [d|e];
      cbn in Hc; [|discriminate Hc].
    injection Hc as <-. split; reflexivity. }
  exists out, (sorted_desc improving_key found).
  split; [exact Hout|].
  split; [apply sorted_desc_perm|].
  split; [apply sorted_desc_sorted|].
  split; [intros k; apply sorted_desc_stable|].
  split; [exact Hall'|].
  eapply Forall2_sorted; [|exact Hall'|apply sorted_desc_sorted].
  intros o c [_ Hs]. rewrite Hs. unfold improving_key. now rewrite length_map.
Qed.

End Improving.

Lemma find_improving_tiles_ranked_witness :
  List.length (tehai_vec34 Fixture.after_draw) = 34
  /\ List.length (akas_in_hand Fixture.after_draw) = 3
  /\ find_improving_tiles Fixture.tools Fixture.after_draw
     = Ok [("5p", ["4m"; "5m"; "6m"]); ("1m", ["2m"; "3m"]);
           ("9m", ["7m"; "8m"])]
  /\ exists out,
       find_improving_tiles Fixture.tools Fixture.after_draw = Ok out
       /\ StronglySorted (at_least (fun o => List.length (snd o))) out.
Proof.
  split; [reflexivity|]. split; [reflexivity|]. split; [reflexivity|].
  destruct (find_improving_tiles_ranked Fixture.tools Fixture.after_draw
              eq_refl eq_refl) as (out & ranked & H & _ & _ & _ & _ & Hs).
  exists out. split; [exact H | exact Hs].
Defined.

(** ** Further properties: the hand listing *)

Lemma tehai_mjai_loop_app (pre post : list Z) : forall g i,
  tehai_mjai_loop g i (pre ++ post)
  = (g' <- tehai_mjai_loop g i pre ;;
     tehai_mjai_loop g' (i + List.length pre) post).
Proof.
  induction pre as [|c pre IH]; intros g i; cbn [tehai_mjai_loop app List.length].
  - cbn. now rewrite Nat.add_0_r.
  - destruct (tehai_mjai_step g i c) as [g1|e]; cbn [bind]; [|reflexivity].
    rewrite IH. now rewrite Nat.add_succ_r.
Qed.

Lemma zi_map_in_range (i : nat) :
  27 <= i < 34 -> py_getitem zi_map (i - 27) = Ok (nth (i - 27) zi_map "").
Proof.
  intros H. unfold py_getitem.
  rewrite (nth_error_nth' zi_map "" (n:=i - 27)); [reflexivity|].
  cbn; lia.
Qed.

(** One slot: the step succeeds below index 34, writes the plain symbols at
    the end of the four plain groups read in a row, and the red symbol at the
    end of the fifth. *)
Lemma tehai_mjai_step_spec (g : groups) (i : nat) (c : Z) :
  i < 34 -> groups_ahead_empty i g ->
  exists g',
    tehai_mjai_step g i c = Ok g'
    /\ groups_ahead_empty (S i) g'
    /\ (ms g' ++ ps g' ++ ss g' ++ zis g'
        = (ms g ++ ps g ++ ss g ++ zis g)
          ++ (if five_slot i then [] else repeat (tile_symbol i) (Z.to_nat c)))%list
    /\ (akas g'
        = akas g ++ (if five_slot i && truthy c then [red_symbol i] else []))%list.
Proof.
  intros Hi (Hp & Hs & Hz).
  unfold tehai_mjai_step, five_slot, tile_symbol, red_symbol, py_repeat,
    groups_ahead_empty.
  destruct (truthy c) eqn:Hc; cbn [andb orb].
  - split_tests; cbn [andb orb]; try lia;
      try (rewrite zi_map_in_range by lia; cbn [bind]);
      eexists; (split; [reflexivity|]); cbn [ms ps ss zis akas];
      rewrite ?app_nil_r;
      try rewrite Hp by lia; try rewrite Hs by lia; try rewrite Hz by lia;
      rewrite ?app_nil_r, <- ?app_assoc; cbn [app];
      repeat split; intros; try lia; try reflexivity.
    all: replace (Z.to_nat c) with 0 by lia; cbn; now rewrite ?app_nil_r.
  - unfold truthy in Hc. apply negb_false_iff, Z.eqb_eq in Hc. subst c.
    cbn [Z.ltb Z.compare Z.to_nat repeat].
    split_tests; cbn [andb orb]; exists g; rewrite ?app_nil_r;
      repeat split; intros; try reflexivity;
      try (apply Hp; lia); try (apply Hs; lia); try (apply Hz; lia).
Qed.

Lemma tehai_mjai_loop_spec (tehai : list Z) : forall g i,
  i + List.length tehai <= 34 -> groups_ahead_empty i g ->
  exists g',
    tehai_mjai_loop g i tehai = Ok g'
    /\ (ms g' ++ ps g' ++ ss g' ++ zis g'
        = (ms g ++ ps g ++ ss g ++ zis g) ++ plain_listing i tehai)%list
    /\ (akas g' = akas g ++ red_listing i tehai)%list.
Proof.
  induction tehai as [|c rest IH]; intros g i Hlen Hg;
    cbn [tehai_mjai_loop plain_listing red_listing List.length] in *.
  - exists g. now rewrite !app_nil_r.
  - destruct (tehai_mjai_step_spec g i c ltac:(lia) Hg)
      as (g1 & -> & Hg1 & Hflat & Hred); cbn [bind].
    destruct (IH g1 (S i) ltac:(lia) Hg1) as (g' & -> & Hflat' & Hred').
    exists g'. split; [reflexivity|]. split.
    + rewrite Hflat', Hflat. now rewrite <- !app_assoc.
    + rewrite Hred', Hred. now rewrite <- !app_assoc.
Qed.

Lemma tehai_mjai_closed_form (tehai : list Z) :
  List.length tehai <= 34 ->
  tehai_mjai_of tehai = Ok (plain_listing 0 tehai ++ red_listing 0 tehai)%list.
Proof.
  intros Hlen. unfold tehai_mjai_of.
  destruct (tehai_mjai_loop_spec tehai (Groups [] [] [] [] []) 0 Hlen)
    as (g & -> & Hflat & Hred).
  { repeat split; reflexivity. }
  cbn [bind]. cbn [ms ps ss zis akas app] in Hflat, Hred.
  rewrite <- Hflat, <- Hred. now rewrite <- !app_assoc.
Qed.

(** X1: on a count vector of at most 34 slots [tehai_mjai] returns, and what
    it returns is one pass over the slots in index order that writes each
    tile of a slot other than the three five-slots, followed by one red
    symbol for each five-slot whose count is not zero, in the order m, p,
    s. *)
Theorem tehai_mjai_slot_order (tehai : list Z) :
  List.length tehai <= 34 ->
  tehai_mjai_of tehai = Ok (plain_listing 0 tehai ++ red_listing 0 tehai)%list.
Proof. exact (tehai_mjai_closed_form tehai). Qed.

Lemma tehai_mjai_slot_order_witness :
  List.length docstring_hand <= 34
  /\ tehai_mjai_of docstring_hand
     = Ok (plain_listing 0 docstring_hand ++ red_listing 0 docstring_hand)%list
  /\ red_listing 0 docstring_hand = ["5sr"].
Proof.
  split; [vm_compute; repeat constructor|].
  split; [apply tehai_mjai_slot_order; vm_compute; repeat constructor
         | reflexivity].
Defined.

Lemma listing_length (tehai : list Z) : forall i,
  Forall (fun c => 0 <= c)%Z tehai ->
  (Z.of_nat (List.length (plain_listing i tehai ++ red_listing i tehai))
   = sum_counts tehai - five_excess i tehai)%Z.
Proof.
  induction tehai as [|c rest IH]; intros i Hpos; [reflexivity|].
  inversion Hpos as [|? ? Hc Hrest]; subst.
  specialize (IH (S i) Hrest).
  cbn [plain_listing red_listing five_excess sum_counts fold_right].
  fold (sum_counts rest).
  rewrite !length_app in *. unfold truthy.
  destruct (five_slot i); cbn [andb].
  - destruct (Z.eqb_spec c 0); cbn [negb List.length]; lia.
  - rewrite repeat_length; cbn [List.length]; lia.
Qed.

(** X2: with no negative count and at most 34 slots, the listing is as long
    as the counts sum up to, less all but one tile of each five-slot; so it
    is as long as the sum exactly when no five-slot holds more than one
    tile, and never longer. *)
Theorem tehai_mjai_length (tehai : list Z) :
  List.length tehai <= 34 ->
  Forall (fun c => 0 <= c)%Z tehai ->
  exists tiles,
    tehai_mjai_of tehai = Ok tiles
    /\ (Z.of_nat (List.length tiles)
        = sum_counts tehai - five_excess 0 tehai)%Z
    /\ (0 <= five_excess 0 tehai)%Z.
Proof.
  intros Hlen Hpos. eexists. split; [apply tehai_mjai_closed_form, Hlen|].
  split; [apply listing_length, Hpos|].
  generalize 0. clear. induction tehai as [|c rest IH]; intros i; cbn; [lia|].
  specialize (IH (S i)). destruct (five_slot i); lia.
Qed.

Lemma tehai_mjai_length_witness :
  exists tiles,
    tehai_mjai_of two_fives_m = Ok tiles
    /\ (Z.of_nat (List.length tiles) = 2 - 1)%Z.
Proof.
  destruct (tehai_mjai_length two_fives_m) as (tiles & H & Hl & _).
  - vm_compute; repeat constructor.
  - vm_compute. repeat (constructor; [discriminate|]). constructor.
  - exists tiles. split; [exact H | exact Hl].
Defined.

Lemma plain_listing_In (x : string) (tehai : list Z) : forall i,
  In x (plain_listing i tehai) ->
  exists j, i <= j < i + List.length tehai
            /\ five_slot j = false /\ x = tile_symbol j.
Proof.
  induction tehai as [|c rest IH]; intros i H; cbn in H; [contradiction|].
  apply in_app_or in H. destruct H as [H|H].
  - destruct (five_slot i) eqn:Hf; [contradiction|].
    apply repeat_spec in H. exists i. cbn; repeat split; try lia; assumption.
  - destruct (IH _ H) as (j & Hj & Hf & Hx).
    exists j. cbn; repeat split; try lia; assumption.
Qed.

Lemma red_listing_In (x : string) (tehai : list Z) : forall i,
  In x (red_listing i tehai) <->
  exists j, i <= j < i + List.length tehai /\ five_slot j = true
            /\ nth (j - i) tehai 0%Z <> 0%Z /\ x = red_symbol j.
Proof.
  induction tehai as [|c rest IH]; intros i; cbn [red_listing List.length].
  - split; [contradiction | intros (j & Hj & _); lia].
  - rewrite in_app_iff, IH. unfold truthy. split.
    + intros [H | (j & Hj & Hf & Hn & Hx)].
      * destruct (five_slot i) eqn:Hf; [|contradiction].
        destruct (Z.eqb_spec c 0); [contradiction|].
        destruct H as [<-|[]]. exists i. rewrite Nat.sub_diag.
        repeat split; try lia; assumption.
      * exists j. repeat split; try lia; try assumption.
        replace (j - i) with (S (j - S i)) by lia. exact Hn.
    + intros (j & Hj & Hf & Hn & Hx).
      destruct (Nat.eq_dec j i) as [->|Hne].
      * left. rewrite Nat.sub_diag in Hn; cbn in Hn. rewrite Hf.
        destruct (Z.eqb_spec c 0); [contradiction|]. now left.
      * right. exists j. repeat split; try lia; try assumption.
        replace (j - i) with (S (j - S i)) in Hn by lia. exact Hn.
Qed.

Lemma tile_symbol_not_five (j : nat) :
  j < 34 -> five_slot j = false -> ~ In (tile_symbol j) five_symbols.
Proof.
  intros Hj Hf.
  assert (Hall : forallb (fun k => five_slot k
                   || negb (existsb (String.eqb (tile_symbol k)) five_symbols))
                   (seq 0 34) = true) by (vm_compute; reflexivity).
  rewrite forallb_forall in Hall.
  specialize (Hall j ltac:(apply in_seq; lia)). rewrite Hf in Hall.
  cbn [orb] in Hall. apply negb_true_iff in Hall.
  intros Hin. assert (existsb (String.eqb (tile_symbol j)) five_symbols = true)
    as Hex; [|congruence].
  apply existsb_exists. exists (tile_symbol j). split; [exact Hin|].
  apply String.eqb_refl.
Qed.

Lemma red_symbol_at (j : nat) :
  five_slot j = true ->
  (red_symbol j = "5mr" <-> j = 4) /\ (red_symbol j = "5pr" <-> j = 13)
  /\ (red_symbol j = "5sr" <-> j = 22)
  /\ ~ In (red_symbol j) ["5m"; "5p"; "5s"].
Proof.
  unfold five_slot, red_symbol. intros H.
  apply orb_true_iff in H. destruct H as [H|H];
    [apply orb_true_iff in H; destruct H as [H|H]|];
    apply Nat.eqb_eq in H; subst j; cbn;
    (repeat split; try discriminate; try lia; try reflexivity);
    intros [H|[H|[H|[]]]]; discriminate H.
Qed.

Lemma red_in_listing (tehai : list Z) (tiles : list string) (k : nat) :
  List.length tehai <= 34 -> five_slot k = true ->
  tehai_mjai_of tehai = Ok tiles ->
  In (red_symbol k) tiles <-> nth k tehai 0%Z <> 0%Z.
Proof.
  intros Hlen Hk Hok. rewrite (tehai_mjai_closed_form tehai Hlen) in Hok.
  injection Hok as <-. rewrite in_app_iff. split.
  - intros [H|H].
    + destruct (plain_listing_In _ _ _ H) as (j & Hj & Hf & Hx).
      exfalso. apply (tile_symbol_not_five j ltac:(lia) Hf). rewrite <- Hx.
      unfold five_slot, red_symbol, five_symbols in *.
      destruct (k =? 4)%nat; [cbn; tauto|].
      destruct (k =? 4 + 9)%nat; cbn; tauto.
    + apply red_listing_In in H. destruct H as (j & Hj & Hf & Hn & Hx).
      rewrite Nat.sub_0_r in Hn.
      assert (j = k) as ->; [|exact Hn].
      destruct (red_symbol_at j Hf) as (H1 & H2 & H3 & _).
      destruct (red_symbol_at k Hk) as (K1 & K2 & K3 & _).
      unfold five_slot in Hk.
      apply orb_true_iff in Hk. destruct Hk as [Hk|Hk];
        [apply orb_true_iff in Hk; destruct Hk as [Hk|Hk]|];
        apply Nat.eqb_eq in Hk; subst k; cbn in Hx; symmetry in Hx;
        [apply H1 in Hx | apply H2 in Hx | apply H3 in Hx]; exact Hx.
  - intros Hn. right. apply red_listing_In. exists k.
    rewrite Nat.sub_0_r. repeat split; try lia; try assumption.
    destruct (Nat.lt_ge_cases k (List.length tehai)) as [Hlt|Hge]; [lia|].
    rewrite nth_overflow in Hn by exact Hge. contradiction.
Qed.

(** X3: in the listing of at most 34 slots the red symbol of a suit is
    present exactly when the five-slot of that suit is not zero, whatever
    the red-five flags, and the plain symbols 5m, 5p and 5s are never
    present. *)
Theorem tehai_mjai_fives (tehai : list Z) (tiles : list string) :
  List.length tehai <= 34 ->
  tehai_mjai_of tehai = Ok tiles ->
  (In "5mr" tiles <-> nth 4 tehai 0%Z <> 0%Z)
  /\ (In "5pr" tiles <-> nth 13 tehai 0%Z <> 0%Z)
  /\ (In "5sr" tiles <-> nth 22 tehai 0%Z <> 0%Z)
  /\ ~ In "5m" tiles /\ ~ In "5p" tiles /\ ~ In "5s" tiles.
Proof.
  intros Hlen Hok.
  split; [exact (red_in_listing tehai tiles 4 Hlen eq_refl Hok)|].
  split; [exact (red_in_listing tehai tiles 13 Hlen eq_refl Hok)|].
  split; [exact (red_in_listing tehai tiles 22 Hlen eq_refl Hok)|].
  rewrite (tehai_mjai_closed_form tehai Hlen) in Hok. injection Hok as <-.
  assert (Hno : forall x, In x ["5m"; "5p"; "5s"] ->
            ~ In x (plain_listing 0 tehai ++ red_listing 0 tehai)).
  { intros x Hx Hin. apply in_app_or in Hin. destruct Hin as [H|H].
    - destruct (plain_listing_In _ _ _ H) as (j & Hj & Hf & ->).
      apply (tile_symbol_not_five j ltac:(lia) Hf).
      unfold five_symbols. cbn in Hx |- *. tauto.
    - apply red_listing_In in H. destruct H as (j & _ & Hf & _ & ->).
      destruct (red_symbol_at j Hf) as (_ & _ & _ & Hn). exact (Hn Hx). }
  repeat split; apply Hno; cbn; tauto.
Qed.

Lemma tehai_mjai_fives_witness :
  exists tiles,
    tehai_mjai_of docstring_hand = Ok tiles
    /\ In "5sr" tiles /\ ~ In "5s" tiles /\ ~ In "5mr" tiles.
Proof.
  exists ["1m"; "2m"; "6m"; "9m"; "1p"; "3p"; "4p"; "3s"; "4s"; "7s"; "9s";
          "P"; "F"; "5sr"].
  assert (Hlen : List.length docstring_hand <= 34)
    by (vm_compute; repeat constructor).
  assert (Hok : tehai_mjai_of docstring_hand
                = Ok ["1m"; "2m"; "6m"; "9m"; "1p"; "3p"; "4p"; "3s"; "4s";
                      "7s"; "9s"; "P"; "F"; "5sr"]) by reflexivity.
  destruct (tehai_mjai_fives docstring_hand _ Hlen Hok)
    as (Hm & _ & Hs & _ & _ & Hns).
  split; [exact Hok|]. split; [apply Hs; discriminate|].
  split; [exact Hns|]. intros H. apply Hm in H. apply H. reflexivity.
Defined.

Lemma tehai_mjai_step_skip (g : groups) (i : nat) (c : Z) :
  27 <= i -> (c <= 0)%Z -> tehai_mjai_step g i c = Ok g.
Proof.
  intros Hi Hc. unfold tehai_mjai_step.
  destruct (truthy c); cbn [andb]; split_tests; cbn [andb]; try lia;
    reflexivity.
Qed.

Lemma tehai_mjai_loop_skip (extra : list Z) : forall g i,
  27 <= i -> Forall (fun c => c <= 0)%Z extra ->
  tehai_mjai_loop g i extra = Ok g.
Proof.
  induction extra as [|c rest IH]; intros g i Hi Hall; [reflexivity|].
  inversion Hall; subst. cbn [tehai_mjai_loop].
  rewrite tehai_mjai_step_skip by assumption. cbn [bind].
  apply IH; [lia | assumption].
Qed.

(** X4: past the 34th slot the listing has no symbol to write: a positive
    count there raises [IndexError], whatever follows it, while counts that
    are zero or negative there change nothing. *)
Theorem tehai_mjai_beyond_34 (tehai extra rest : list Z) (c : Z) :
  List.length tehai = 34 ->
  Forall (fun x => x <= 0)%Z extra ->
  (0 < c)%Z ->
  tehai_mjai_of (tehai ++ extra) = tehai_mjai_of tehai
  /\ tehai_mjai_of (tehai ++ extra ++ c :: rest)
     = Raise (Exn IndexError "list index out of range").
Proof.
  intros Hlen Hextra Hc. unfold tehai_mjai_of.
  destruct (tehai_mjai_loop_spec tehai (Groups [] [] [] [] []) 0 ltac:(lia))
    as (g & Hg & _).
  { repeat split; reflexivity. }
  rewrite !tehai_mjai_loop_app, Hg; cbn [bind]. split.
  - rewrite tehai_mjai_loop_skip by (try lia; assumption). reflexivity.
  - rewrite tehai_mjai_loop_app.
    rewrite tehai_mjai_loop_skip by (try lia; assumption). cbn [bind].
    cbn [tehai_mjai_loop]. unfold tehai_mjai_step.
    assert (Ht : truthy c = true)
      by (unfold truthy; destruct (Z.eqb_spec c 0); [lia | reflexivity]).
    rewrite Ht; cbn [andb]. rewrite Hlen.
    split_tests; try lia.
    replace (0 + 34 + List.length extra - 27) with (7 + List.length extra)
      by lia.
    unfold py_getitem.
    replace (nth_error zi_map (7 + List.length extra)) with (@None string)
      by (symmetry; apply nth_error_None; cbn; lia).
    reflexivity.
Qed.

Lemma tehai_mjai_beyond_34_witness :
  tehai_mjai_of (docstring_hand ++ [0; 0])%Z%list = tehai_mjai_of docstring_hand
  /\ tehai_mjai_of (docstring_hand ++ [0; 0] ++ [1; 0])%Z%list
     = Raise (Exn IndexError "list index out of range").
Proof.
  apply (tehai_mjai_beyond_34 docstring_hand [0; 0]%Z [0%Z] 1%Z).
  - reflexivity.
  - repeat constructor; discriminate.
  - reflexivity.
Defined.

(** ** Further properties: the red-five substitution and the ranking *)

Lemma py_getitem_nth {A : Type} (l : list A) (i : nat) (d : A) :
  i < List.length l -> py_getitem l i = Ok (nth i l d).
Proof.
  intros H. unfold py_getitem. now rewrite (nth_error_nth' l d H).
Qed.

Lemma py_getitem_short {A : Type} (l : list A) (i : nat) :
  List.length l <= i ->
  py_getitem l i = Raise (Exn IndexError "list index out of range").
Proof.
  intros H. unfold py_getitem.
  now replace (nth_error l i) with (@None A)
    by (symmetry; apply nth_error_None; exact H).
Qed.

Lemma aka_value (tehai : list Z) (flags : list bool) (tile : string) :
  23 <= List.length tehai -> 3 <= List.length flags ->
  _aka tehai flags tile
  = Ok (if (tile =? "5s") && (nth 4 tehai 0 =? 1)%Z && nth 0 flags false
        then "5sr"
        else if (tile =? "5p")
                && ((nth 13 tehai 0 =? 1)%Z && nth 1 flags false
                    || (nth 22 tehai 0 =? 1)%Z && nth 2 flags false)
             then "5pr" else tile).
Proof.
  intros Ht Hf. unfold _aka.
  rewrite (py_getitem_nth tehai 4 0%Z), (py_getitem_nth tehai (4 + 9) 0%Z),
    (py_getitem_nth tehai (4 + 18) 0%Z), (py_getitem_nth flags 0 false),
    (py_getitem_nth flags 1 false), (py_getitem_nth flags 2 false) by lia.
  cbn [Nat.add bind].
  destruct (tile =? "5s"), (tile =? "5p"); cbn [andb bind];
    destruct (nth 4 tehai 0 =? 1)%Z, (nth 13 tehai 0 =? 1)%Z,
      (nth 22 tehai 0 =? 1)%Z, (nth 0 flags false), (nth 1 flags false),
      (nth 2 flags false); reflexivity.
Qed.

Lemma aka_cases (tehai : list Z) (flags : list bool) (tile : string) :
  List.length tehai = 34 -> List.length flags = 3 ->
  exists s,
    _aka tehai flags tile = Ok s
    /\ (s = tile \/ s = tile ++ "r")
    /\ (flags = [false; false; false] -> s = tile)
    /\ (nth 4 tehai 0%Z <> 1%Z -> nth 13 tehai 0%Z <> 1%Z ->
        nth 22 tehai 0%Z <> 1%Z -> s = tile).
Proof.
  intros Ht Hf. eexists. split; [apply aka_value; lia|].
  split; [|split].
  - destruct (String.eqb_spec tile "5s") as [->|]; cbn [andb].
    + destruct (_ && _); [right | left]; reflexivity.
    + destruct (String.eqb_spec tile "5p") as [->|]; cbn [andb];
        [|left; reflexivity].
      destruct (_ || _); [right | left]; reflexivity.
  - intros ->. cbn [nth]. now rewrite !andb_false_r.
  - intros H1 H2 H3.
    apply Z.eqb_neq in H1, H2, H3. rewrite H1, H2, H3.
    now rewrite !andb_false_r.
Qed.


(** X5: on a hand of 34 counts and 3 flags [_aka] returns its argument or
    its argument followed by "r"; it returns its argument when no flag is
    set, and when none of the three five-slots holds exactly one tile. *)
Theorem aka_conservative (tehai : list Z) (flags : list bool) (tile : string) :
  List.length tehai = 34 -> List.length flags = 3 ->
  exists s,
    _aka tehai flags tile = Ok s
    /\ (s = tile \/ s = tile ++ "r")
    /\ (flags = [false; false; false] -> s = tile)
    /\ (nth 4 tehai 0%Z <> 1%Z -> nth 13 tehai 0%Z <> 1%Z ->
        nth 22 tehai 0%Z <> 1%Z -> s = tile).
Proof. exact (aka_cases tehai flags tile). Qed.

Lemma aka_conservative_witness :
  exists s,
    _aka (one_five 13) [false; true; false] "5p" = Ok s
    /\ (s = "5p" \/ s = "5p" ++ "r").
Proof.
  destruct (aka_conservative (one_five 13) [false; true; false] "5p"
              eq_refl eq_refl) as (s & H & Hs & _).
  exists s. split; [exact H | exact Hs].
Defined.

Lemma aka_bounds (tehai : list Z) (flags : list bool) :
  (forall tile, tile <> "5s" -> tile <> "5p" -> _aka tehai flags tile = Ok tile)
  /\ (List.length tehai <= 4 ->
      _aka tehai flags "5s" = Raise (Exn IndexError "list index out of range"))
  /\ (List.length tehai <= 13 ->
      _aka tehai flags "5p" = Raise (Exn IndexError "list index out of range")).
Proof.
  split; [|split].
  - intros tile Hs Hp. unfold _aka.
    apply String.eqb_neq in Hs, Hp. rewrite Hs, Hp. reflexivity.
  - intros H. unfold _aka. cbn [String.eqb Ascii.eqb Bool.eqb].
    rewrite (py_getitem_short tehai 4 H). reflexivity.
  - intros H. unfold _aka. cbn [String.eqb Ascii.eqb Bool.eqb bind].
    rewrite (py_getitem_short tehai (4 + 9) H). reflexivity.
Qed.


(** X6: [_aka] reads the hand only for "5s" and "5p": any other symbol comes
    back unchanged whatever the two lists are, while "5s" on a hand of fewer
    than 5 slots and "5p" on a hand of fewer than 14 slots raise
    [IndexError]. *)
Theorem aka_reads_only_fives (tehai : list Z) (flags : list bool) :
  (forall tile, tile <> "5s" -> tile <> "5p" -> _aka tehai flags tile = Ok tile)
  /\ (List.length tehai <= 4 ->
      _aka tehai flags "5s" = Raise (Exn IndexError "list index out of range"))
  /\ (List.length tehai <= 13 ->
      _aka tehai flags "5p" = Raise (Exn IndexError "list index out of range")).
Proof. exact (aka_bounds tehai flags). Qed.

Lemma aka_reads_only_fives_witness :
  _aka [] [] "E" = Ok "E"
  /\ _aka [0; 0; 0; 1]%Z [true] "5s"
     = Raise (Exn IndexError "list index out of range").
Proof.
  destruct (aka_reads_only_fives [0; 0; 0; 1]%Z [true]) as (_ & H & _).
  destruct (aka_reads_only_fives [] []) as (H0 & _).
  split; [apply H0; discriminate | apply H; cbn; lia].
Defined.

(** A list that is already ranked comes out of the sort as it went in. *)
Lemma insert_desc_head {A : Type} (key : A -> nat) (x : A) (l : list A) :
  Forall (at_least key x) l -> insert_desc key x l = x :: l.
Proof.
  intros H. destruct l as [|y r]; [reflexivity|].
  inversion H as [|? ? Hy _]; subst. cbn [insert_desc].
  unfold at_least in Hy.
  now replace (key x <? key y)%nat with false
    by (symmetry; apply Nat.ltb_ge; exact Hy).
Qed.

Lemma sorted_desc_fixed {A : Type} (key : A -> nat) (l : list A) :
  StronglySorted (at_least key) l -> sorted_desc key l = l.
Proof.
  induction 1 as [|x r Hs IH Hall]; [reflexivity|].
  cbn [sorted_desc]. rewrite IH. now apply insert_desc_head.
Qed.

Lemma mapM_raises {A B : Type} (f : A -> result B) (e : exn) (l : list A) :
  (forall x, In x l -> (exists y, f x = Ok y) \/ f x = Raise e) ->
  (exists x, In x l /\ f x = Raise e) ->
  mapM f l = Raise e.
Proof.
  induction l as [|x r IH]; intros Hall (z & Hz & He); [contradiction|].
  cbn [mapM].
  destruct (Hall x (or_introl eq_refl)) as [[y Hy] | Hx];
    [|rewrite Hx; reflexivity].
  rewrite Hy; cbn [bind].
  destruct Hz as [-> | Hz]; [congruence|].
  rewrite IH; [reflexivity | |exists z; split; assumption].
  intros w Hw; apply Hall; now right.
Qed.

Lemma Forall2_Forall_left {A B : Type} (P : B -> A -> Prop) (Q : B -> Prop)
  (out : list B) (l : list A) :
  Forall2 P out l ->
  (forall o c, In c l -> P o c -> Q o) -> Forall Q out.
Proof.
  induction 1 as [|o c out l Hoc Hall IH]; intros H; constructor.
  - apply (H o c); [now left | exact Hoc].
  - apply IH. intros o' c' Hc'. apply H. now right.
Qed.

Section ImprovingMore.

Context {E : Engine}.
Variable T : Tools.

(** X7: when the search routine returns its pairs already in descending
    order of the number of improving tiles, [find_improving_tiles] returns
    their translations in the routine's order, pair for pair. *)
Theorem find_improving_tiles_keeps_ranked (b : Bot E) :
  List.length (tehai_vec34 b) = 34 ->
  List.length (akas_in_hand b) = 3 ->
  let found := ext_find_improving_tiles T (tehai_tenhou T b) in
  let name := vec34_index_to_mjai_tile T in
  StronglySorted (at_least improving_key) found ->
  exists out,
    find_improving_tiles T b = Ok out
    /\ Forall2 (fun o c =>
                  _aka (tehai_vec34 b) (akas_in_hand b) (name (fst c))
                  = Ok (fst o)
                  /\ snd o = map name (snd c)) out found.
Proof.
  intros Ht Hf found name Hranked. unfold find_improving_tiles.
  fold found. fold name. rewrite (sorted_desc_fixed _ _ Hranked).
  set (conv := fun c : Z * list Z =>
                 d <- _aka (tehai_vec34 b) (akas_in_hand b) (name (fst c)) ;;
                 Ok (d, map name (snd c))).
  destruct (mapM_returns conv found) as (out & Hout & Hall).
  { intros c _. unfold conv.
    destruct (aka_returns _ _ (name (fst c)) Ht Hf) as [s ->].
    eexists; reflexivity. }
  exists out. split; [exact Hout|].
  eapply Forall2_impl; [|exact Hall]. intros o c Hc. unfold conv in Hc.
  destruct (_aka (tehai_vec34 b) (akas_in_hand b) (name (fst c))) as [d|e];
    cbn in Hc; [|discriminate Hc].
  injection Hc as <-. split; reflexivity.
Qed.

(** X8: on a hand of 34 counts and 3 flags [find_improving_tiles] returns one
    pair for each pair of the search routine and none when the routine finds
    none; the discard of a pair is the name of the routine's discard or that
    name followed by "r", and its improving tiles are the names of the
    routine's improving tiles, in the routine's order. *)
Theorem find_improving_tiles_shape (b : Bot E) :
  List.length (tehai_vec34 b) = 34 ->
  List.length (akas_in_hand b) = 3 ->
  let found := ext_find_improving_tiles T (tehai_tenhou T b) in
  let name := vec34_index_to_mjai_tile T in
  exists out,
    find_improving_tiles T b = Ok out
    /\ List.length out = List.length found
    /\ (found = [] -> out = [])
    /\ Forall (fun o =>
                 exists c, In c found
                   /\ (fst o = name (fst c) \/ fst o = name (fst c) ++ "r")
                   /\ snd o = map name (snd c)) out.
Proof.
  intros Ht Hf found name. unfold find_improving_tiles. fold found. fold name.
  set (conv := fun c : Z * list Z =>
                 d <- _aka (tehai_vec34 b) (akas_in_hand b) (name (fst c)) ;;
                 Ok (d, map name (snd c))).
  destruct (mapM_returns conv (sorted_desc improving_key found))
    as (out & Hout & Hall).
  { intros c _. unfold conv.
    destruct (aka_returns _ _ (name (fst c)) Ht Hf) as [s ->].
    eexists; reflexivity. }
  exists out. split; [exact Hout|]. split; [|split].
  - apply Forall2_length in Hall. rewrite Hall.
    apply Permutation_length, sorted_desc_perm.
  - intros Hnil. rewrite Hnil in Hall. cbn in Hall. now inversion Hall.
  - eapply Forall2_Forall_left; [exact Hall|].
    intros o c Hc Hoc. exists c.
    split; [exact (Permutation_in c (sorted_desc_perm _ _ _) Hc)|].
    cbn beta in Hoc. unfold conv in Hoc.
    destruct (aka_cases (tehai_vec34 b) (akas_in_hand b)
                (name (fst c)) Ht Hf) as (s & Hs & Hor & _).
    rewrite Hs in Hoc. cbn [bind] in Hoc. injection Hoc as <-.
    split; [exact Hor | reflexivity].
Qed.

(** X9: on a hand of fewer than 5 counts, a routine's pair whose discard is
    named "5s" or "5p" makes the whole call raise [IndexError]; no part of
    the ranking is returned. *)
Theorem find_improving_tiles_short_hand (b : Bot E) (c : Z * list Z) :
  List.length (tehai_vec34 b) <= 4 ->
  In c (ext_find_improving_tiles T (tehai_tenhou T b)) ->
  vec34_index_to_mjai_tile T (fst c) = "5s"
  \/ vec34_index_to_mjai_tile T (fst c) = "5p" ->
  find_improving_tiles T b
  = Raise (Exn IndexError "list index out of range").
Proof.
  intros Ht Hc Hname. unfold find_improving_tiles.
  destruct (aka_bounds (tehai_vec34 b) (akas_in_hand b))
    as (Hother & H5s & H5p).
  apply mapM_raises.
  - intros x _.
    destruct (String.eqb_spec (vec34_index_to_mjai_tile T (fst x)) "5s")
      as [Hs|Hs]; [right; rewrite Hs, (H5s Ht); reflexivity|].
    destruct (String.eqb_spec (vec34_index_to_mjai_tile T (fst x)) "5p")
      as [Hp|Hp]; [right; rewrite Hp, (H5p ltac:(lia)); reflexivity|].
    left. rewrite (Hother _ Hs Hp). eexists; reflexivity.
  - exists c. split.
    + apply (Permutation_in c (Permutation_sym (sorted_desc_perm _ _ _)) Hc).
    + destruct Hname as [Hname|Hname]; rewrite Hname;
        [rewrite (H5s Ht) | rewrite (H5p ltac:(lia))]; reflexivity.
Qed.

End ImprovingMore.

Lemma find_improving_tiles_keeps_ranked_witness :
  exists out,
    find_improving_tiles ranked_tools Fixture.after_draw = Ok out
    /\ map snd out = [["4m"; "5m"; "6m"]; ["2m"; "3m"]; ["7m"; "8m"]].
Proof.
  destruct (find_improving_tiles_keeps_ranked ranked_tools Fixture.after_draw
              eq_refl eq_refl) as (out & H & Hall).
  - repeat constructor.
  - exists out. split; [exact H|].
    assert (Ho : find_improving_tiles ranked_tools Fixture.after_draw
                 = Ok [("5p", ["4m"; "5m"; "6m"]); ("1m", ["2m"; "3m"]);
                       ("9m", ["7m"; "8m"])]) by reflexivity.
    rewrite Ho in H. injection H as <-. reflexivity.
Defined.

Lemma find_improving_tiles_shape_witness :
  exists out,
    find_improving_tiles Fixture.tools Fixture.after_draw = Ok out
    /\ List.length out = 3.
Proof.
  destruct (find_improving_tiles_shape Fixture.tools Fixture.after_draw
              eq_refl eq_refl) as (out & H & Hlen & _).
  exists out. split; [exact H | exact Hlen].
Defined.

Lemma find_improving_tiles_short_hand_witness :
  find_improving_tiles Fixture.tools
    (mkBot (E:=Fixture.engine) 0 (Fixture.Seat 0 [] None [] []) None)
  = Raise (Exn IndexError "list index out of range").
Proof.
  apply (find_improving_tiles_short_hand Fixture.tools _ (13, [3; 4; 5])%Z).
  - cbn; lia.
  - cbn; tauto.
  - right; reflexivity.
Defined.

(** ** Further properties: the reactive step *)

Lemma chars_length (s : string) : List.length (chars s) = String.length s.
Proof. induction s as [|c r IH]; cbn; [reflexivity | now rewrite IH]. Qed.

Lemma py_len_iter (v : json) :
  is_scalar v = false -> py_len v = Ok (List.length (py_iter v)).
Proof.
  destruct v; cbn; try discriminate; intros _.
  - now rewrite chars_length.
  - reflexivity.
  - now rewrite length_map.
Qed.

Section ReactMore.

Context {E : Engine}.
Variable json_loads : string -> string + json.

Lemma apply_events_keeps_snapshot (events : list json) : forall (b b' : Bot E) r,
  apply_events b events = (b', r) ->
  action_candidate b <> None -> action_candidate b' <> None.
Proof.
  induction events as [|ev rest IH]; intros b b' r H Hsome; cbn in H.
  - now injection H as <- _.
  - destruct (ps_update E (player_state b) (dumps_default ev)) as [ps1 [m|ac]].
    + now injection H as <- _.
    + apply (IH _ _ _ H). cbn; discriminate.
Qed.

Lemma react_keeps_snapshot (think_impl : Bot E -> result string) b input b' log r :
  react json_loads think_impl b input = (b', log, r) ->
  action_candidate b <> None -> action_candidate b' <> None.
Proof.
  intros H Hsome.
  assert (Hb : fst (react_try json_loads think_impl b input) = b').
  { unfold react in H.
    destruct (react_try json_loads think_impl b input) as [b1 [resp|e]];
      [|destruct (is_Exception (exn_cls e))]; now injection H as <- _ _. }
  rewrite <- Hb. unfold react_try.
  destruct (json_loads input) as [msg|events]; [exact Hsome|].
  destruct (py_len events) as [n|e]; [|exact Hsome].
  destruct (n =? 0)%nat; [exact Hsome|].
  destruct (apply_events b (py_iter events)) as [b1 [u|e1]] eqn:Happ;
    exact (apply_events_keeps_snapshot _ _ _ _ Happ Hsome).
Qed.

(** X10: a line that decodes to a non-empty list of events which the engine
    accepts one after the other leaves the state the engine reached after
    the last of them, shows the policy the snapshot of the last event only,
    prints nothing, and answers what the policy returns. *)
Theorem react_applies_batch (think_impl : Bot E -> result string) (b : Bot E)
  (input : string) (events : list json) (resp : string) :
  json_loads input = inr (JArr events) ->
  events <> [] ->
  accepted (player_state b) events ->
  let b' := mkBot (player_id b) (ps_after (player_state b) events)
              (last_snapshot (action_candidate b) (player_state b) events) in
  think_impl b' = Ok resp ->
  react json_loads think_impl b input = (b', [], Ok resp)
  /\ exists pre e ac,
       events = (pre ++ [e])%list
       /\ snd (ps_update E (ps_after (player_state b) pre) (dumps_default e))
          = inr ac
       /\ action_candidate b' = Some ac.
Proof.
  intros Hload Hne Hacc b' Hthink. split.
  - unfold react, react_try. rewrite Hload. cbn [py_len py_iter].
    destruct events as [|ev rest]; [contradiction|]. cbn [List.length Nat.eqb].
    rewrite (apply_events_accepted (ev :: rest) b Hacc). fold b'.
    now rewrite Hthink.
  - destruct (exists_last Hne) as (pre & e & ->).
    destruct (last_snapshot_snoc pre e (action_candidate b) (player_state b)
                Hacc) as (ac & H1 & H2).
    exists pre, e, ac. repeat split; assumption.
Qed.

(** X11: a line that decodes to a number, a boolean or null makes [len]
    raise [TypeError]: [react] answers the none event and logs it, the bot
    is as before, and neither the engine nor the policy is called. *)
Theorem react_scalar (think_impl : Bot E -> result string) (b : Bot E)
  (input : string) (v : json) :
  json_loads input = inr v ->
  is_scalar v = true ->
  exists msg,
    react json_loads think_impl b input
    = (b, error_log b (Exn TypeError msg), Ok none_line).
Proof.
  intros Hload Hv. unfold react, react_try. rewrite Hload.
  destruct v; try discriminate Hv; cbn; eexists; reflexivity.
Qed.

(** X12: [react] only takes the length of the decoded value and iterates over
    it, so a line that decodes to a dict is handled like the list of its
    keys and a line that decodes to a string like the list of its
    characters: the engine is fed the keys, or the characters, as JSON
    strings. *)
Theorem react_iterates_container (think_impl : Bot E -> result string)
  (b : Bot E) (input listed : string) (v : json) :
  json_loads input = inr v ->
  is_scalar v = false ->
  json_loads listed = inr (JArr (py_iter v)) ->
  react json_loads think_impl b input = react json_loads think_impl b listed
  /\ (forall kvs, v = JObj kvs -> py_iter v = map (fun kv => JStr (fst kv)) kvs)
  /\ (forall s, v = JStr s -> py_iter v = chars s).
Proof.
  intros Hin Hv Hlisted. split; [|split; intros ? ->; reflexivity].
  unfold react, react_try. rewrite Hin, Hlisted, (py_len_iter v Hv).
  reflexivity.
Qed.

Lemma loop_keeps_snapshot (think_impl : Bot E -> result string) (n : nat) :
  forall b w b' w',
    loop json_loads think_impl n b w = Running b' w' ->
    action_candidate b <> None -> action_candidate b' <> None.
Proof.
  induction n as [|n IH]; intros b w b' w' H Hsome; cbn in H.
  - now injection H as <- _.
  - unfold loop_body in H.
    destruct (readline (stdin w)) as [raw rest].
    destruct (react json_loads think_impl b (py_strip raw))
      as [[b1 log] [resp|e]] eqn:Hr; [|discriminate H].
    apply (IH _ _ _ _ H). exact (react_keeps_snapshot _ _ _ _ _ _ Hr Hsome).
Qed.

(** X13: a snapshot, once there, is never lost: after [react], and after any
    number of passes of the loop, a bot that had a snapshot has one, so the
    accessors return a value and no longer raise [AssertionError], also
    after lines that failed. *)
Theorem snapshot_persists (think_impl : Bot E -> result string) (b : Bot E) :
  action_candidate b <> None ->
  (forall input b' log r,
     react json_loads think_impl b input = (b', log, r) ->
     exists ac, action_candidate b' = Some ac
                /\ can_discard b' = Ok (ac_can_discard ac))
  /\ (forall n w b' w',
        loop json_loads think_impl n b w = Running b' w' ->
        exists ac, action_candidate b' = Some ac
                   /\ can_discard b' = Ok (ac_can_discard ac)).
Proof.
  intros Hsome.
  assert (Hacc : forall b' : Bot E, action_candidate b' <> None ->
            exists ac, action_candidate b' = Some ac
                       /\ can_discard b' = Ok (ac_can_discard ac)).
  { intros b' H. destruct (action_candidate b') as [ac|] eqn:Hac;
      [|contradiction].
    exists ac. split; [reflexivity|].
    exact (candidate_field_Some _ _ _ Hac). }
  split.
  - intros input b' log r H.
    exact (Hacc _ (react_keeps_snapshot _ _ _ _ _ _ H Hsome)).
  - intros n w b' w' H.
    exact (Hacc _ (loop_keeps_snapshot _ _ _ _ _ _ H Hsome)).
Qed.

End ReactMore.

Lemma react_applies_batch_witness :
  react Fixture.loads think (Bot_init Fixture.engine 0) draw_line
  = (Fixture.after_draw, [], Ok (dumps_compact (dahai_event "5m" 0 true))).
Proof.
  refine (proj1 (react_applies_batch Fixture.loads think
                   (Bot_init Fixture.engine 0) draw_line [Fixture.tsumo_5m]
                   (dumps_compact (dahai_event "5m" 0 true)) _ _ _ _)).
  - vm_compute; reflexivity.
  - discriminate.
  - vm_compute; exact I.
  - vm_compute; reflexivity.
Defined.

Lemma react_scalar_witness :
  sample_loads "5" = inr (JInt 5)
  /\ exists msg,
       react sample_loads think Fixture.after_draw "5"
       = (Fixture.after_draw,
          error_log Fixture.after_draw (Exn TypeError msg), Ok none_line).
Proof.
  split; [reflexivity|].
  exact (react_scalar sample_loads think Fixture.after_draw "5" (JInt 5)
           eq_refl eq_refl).
Defined.

Lemma react_iterates_container_witness :
  let object := dumps_compact (JObj [("type", JStr "tsumo")]) in
  let keys := dumps_compact (JArr [JStr "type"]) in
  react sample_loads think (Bot_init Fixture.engine 0) object
  = react sample_loads think (Bot_init Fixture.engine 0) keys
  /\ snd (react sample_loads think (Bot_init Fixture.engine 0) object)
     = Ok none_line.
Proof.
  intros object keys. split; [|vm_compute; reflexivity].
  refine (proj1 (react_iterates_container sample_loads think
                   (Bot_init Fixture.engine 0) object keys
                   (JObj [("type", JStr "tsumo")]) _ _ _));
    vm_compute; reflexivity.
Defined.

Lemma snapshot_persists_witness :
  action_candidate Fixture.after_draw <> None
  /\ exists ac,
       action_candidate
         (fst (fst (react Fixture.loads think Fixture.after_draw "not json")))
       = Some ac.
Proof.
  split; [discriminate|].
  destruct (proj1 (snapshot_persists Fixture.loads think Fixture.after_draw
                     ltac:(discriminate))
              "not json" _ _ _ eq_refl) as (ac & H & _).
  exists ac. exact H.
Defined.

(** ** Further properties: what goes on the wire *)

Lemma printable_app (a b : string) :
  printable (a ++ b) = printable a && printable b.
Proof.
  induction a as [|c a IH]; cbn; [reflexivity|].
  now rewrite IH, andb_assoc.
Qed.

Lemma printable_escape_char (c : ascii) : printable (escape_char c) = true.
Proof.
  destruct c as [[] [] [] [] [] [] [] []]; vm_compute; reflexivity.
Qed.

Lemma printable_escape_string (s : string) :
  printable (escape_string s) = true.
Proof.
  induction s as [|c r IH]; cbn [escape_string]; [reflexivity|].
  now rewrite printable_app, printable_escape_char, IH.
Qed.

Lemma printable_str_of_int (z : Z) : printable (str_of_int z) = true.
Proof.
  unfold str_of_int.
  assert (He : forall d, printable (NilEmpty.string_of_uint d) = true).
  { induction d; cbn; try reflexivity; assumption. }
  assert (Hu : forall d, printable (NilZero.string_of_uint d) = true).
  { intros d. unfold NilZero.string_of_uint.
    destruct d; try reflexivity; apply He. }
  unfold NilZero.string_of_int.
  destruct (Z.to_int z) as [d|d]; [apply Hu|].
  cbn. apply Hu.
Qed.

Lemma hora_wire (actor target : Z) (pai : string) :
  dumps_compact (hora_event actor target pai)
  = "{" ++ dq ++ "type" ++ dq ++ ":" ++ dq ++ "hora" ++ dq ++ ","
    ++ dq ++ "actor" ++ dq ++ ":" ++ str_of_int actor ++ ","
    ++ dq ++ "target" ++ dq ++ ":" ++ str_of_int target ++ ","
    ++ dq ++ "pai" ++ dq ++ ":" ++ dq ++ escape_string pai ++ dq ++ "}".
Proof.
  unfold dumps_compact, hora_event; cbn [json_dumps].
  unfold dumps_str.
  generalize (escape_string pai) (str_of_int actor) (str_of_int target).
  intros p a t; rewrite ?append_assoc; vm_compute; reflexivity.
Qed.

Section Wire.

Context {E : Engine}.
Variable json_loads : string -> string + json.

Lemma think_printable (b : Bot E) (s : string) :
  think b = Ok s -> printable s = true.
Proof.
  unfold think, can_discard, candidate_field, last_self_tsumo, action_discard,
    action_nothing.
  destruct (action_candidate b) as [ac|]; cbn [assert_not_None bind];
    [|discriminate].
  destruct (ac_can_discard ac).
  - destruct (ps_last_self_tsumo E (player_state b)) as [msg|t];
      cbn [engine_call bind]; [discriminate|].
    intros H; injection H as <-.
    rewrite dahai_wire, !printable_app, printable_escape_string,
      printable_str_of_int.
    destruct (t =? t); reflexivity.
  - intros H; injection H as <-. reflexivity.
Qed.

(** X14: whatever the line, the response of [react] under the default
    policy consists of characters from the space to the tilde: it holds no
    line break and no character outside ASCII, whatever the tile the engine
    reports. *)
Theorem react_response_printable (b : Bot E) (input : string)
  (b' : Bot E) (log : list string) (r : result string) :
  react json_loads think b input = (b', log, r) ->
  exists resp, r = Ok resp /\ printable resp = true.
Proof.
  unfold react.
  destruct (react_try json_loads think b input) as [b1 [resp|e]] eqn:Ht.
  - intros H; injection H as _ _ <-. exists resp. split; [reflexivity|].
    unfold react_try in Ht.
    destruct (json_loads input) as [msg|events]; [discriminate Ht|].
    destruct (py_len events) as [n|e]; [|discriminate Ht].
    destruct (n =? 0)%nat; [discriminate Ht|].
    destruct (apply_events b (py_iter events)) as [b2 [u|e1]];
      [|discriminate Ht].
    injection Ht as _ Ht. exact (think_printable _ _ Ht).
  - assert (Hc : is_Exception (exn_cls e) = true).
    { destruct (react_try_raises _ _ _ _ _ _ Ht) as [Hx|Hx];
        [exact Hx | exact (think_raises _ _ Hx)]. }
    rewrite Hc. intros H; injection H as _ _ <-.
    exists none_line. split; reflexivity.
Qed.

(** X15: the two hora actions read the snapshot before they ask the engine
    for the tile: without a snapshot they raise [AssertionError] whatever
    the engine would say; with one, an engine rejection is raised as it is,
    and a tile gives the compact object with the keys type, actor, target
    and pai in this order. *)
Theorem action_agari_order (b : Bot E) :
  (action_candidate b = None ->
   action_tsumo_agari b = Raise (Exn AssertionError "")
   /\ action_ron_agari b = Raise (Exn AssertionError ""))
  /\ (forall ac msg,
        action_candidate b = Some ac ->
        (ps_last_self_tsumo E (player_state b) = inl msg ->
         action_tsumo_agari b = Raise (Exn EngineError msg))
        /\ (ps_last_kawa_tile E (player_state b) = inl msg ->
            action_ron_agari b = Raise (Exn EngineError msg)))
  /\ (forall ac t,
        action_candidate b = Some ac ->
        let line :=
          "{" ++ dq ++ "type" ++ dq ++ ":" ++ dq ++ "hora" ++ dq ++ ","
          ++ dq ++ "actor" ++ dq ++ ":" ++ str_of_int (player_id b) ++ ","
          ++ dq ++ "target" ++ dq ++ ":" ++ str_of_int (ac_target_actor ac)
          ++ "," ++ dq ++ "pai" ++ dq ++ ":" ++ dq ++ escape_string t ++ dq
          ++ "}" in
        (ps_last_self_tsumo E (player_state b) = inr t ->
         action_tsumo_agari b = Ok line)
        /\ (ps_last_kawa_tile E (player_state b) = inr t ->
            action_ron_agari b = Ok line)).
Proof.
  unfold action_tsumo_agari, action_ron_agari, target_actor, last_self_tsumo,
    last_kawa_tile.
  split; [|split].
  - intros H. rewrite (candidate_field_None _ _ H). split; reflexivity.
  - intros ac msg H. rewrite (candidate_field_Some _ _ _ H).
    split; intros ->; reflexivity.
  - intros ac t H; cbv zeta. rewrite (candidate_field_Some _ _ _ H).
    split; intros ->; cbn [bind engine_call]; now rewrite hora_wire.
Qed.

End Wire.

Lemma react_response_printable_witness :
  exists resp,
    snd (react Fixture.loads think (Bot_init Fixture.engine 0) draw_line)
    = Ok resp /\ printable resp = true.
Proof.
  exact (react_response_printable Fixture.loads (Bot_init Fixture.engine 0)
           draw_line _ _ _ eq_refl).
Defined.

Lemma action_agari_order_witness :
  action_tsumo_agari (Bot_init Fixture.engine 0) = Raise (Exn AssertionError "")
  /\ action_ron_agari Fixture.after_draw = Raise (Exn EngineError "no discard")
  /\ action_tsumo_agari Fixture.after_draw
     = Ok (dumps_compact (hora_event 0 0 "5m")).
Proof.
  destruct (action_agari_order (Bot_init Fixture.engine 0)) as (H0 & _).
  destruct (action_agari_order Fixture.after_draw) as (_ & H1 & H2).
  split; [apply H0; reflexivity|].
  split; [apply (H1 (Fixture.candidate true)); reflexivity|].
  apply (H2 (Fixture.candidate true) "5m"); reflexivity.
Defined.

(** ** Further properties: the loop and its streams *)

Lemma lstrip_all_space (s : string) : all_space s = true -> lstrip s = "".
Proof.
  induction s as [|c r IH]; cbn; [reflexivity|].
  intros H. apply andb_true_iff in H. destruct H as [-> H]. exact (IH H).
Qed.

Lemma rstrip_all_space (s : string) : all_space s = true -> rstrip s = "".
Proof.
  induction s as [|c r IH]; cbn; [reflexivity|].
  intros H. apply andb_true_iff in H. destruct H as [-> H].
  now rewrite (IH H).
Qed.

Lemma rstrip_app_space (s pad : string) :
  all_space pad = true -> rstrip (s ++ pad) = rstrip s.
Proof.
  intros H. induction s as [|c r IH]; cbn [append rstrip].
  - exact (rstrip_all_space pad H).
  - now rewrite IH.
Qed.

Lemma py_strip_padded (before s after : string) :
  all_space before = true -> all_space after = true ->
  py_strip (before ++ s ++ after) = py_strip s.
Proof.
  intros Hb Ha. unfold py_strip.
  induction before as [|c r IH]; cbn [append lstrip].
  - clear Hb. induction s as [|c r IH]; cbn [append lstrip].
    + now rewrite (lstrip_all_space after Ha).
    + destruct (py_isspace c); [exact IH|].
      exact (rstrip_app_space (String c r) after Ha).
  - cbn in Hb. apply andb_true_iff in Hb. destruct Hb as [-> Hb]. exact (IH Hb).
Qed.

Section Streams.

Context {E : Engine}.
Variable json_loads : string -> string + json.
Variable think_impl : Bot E -> result string.

(** X16: whatever the policy, while the loop is running it consumes one line
    per pass, in order, and adds one entry per pass to [stdout], each ending
    in a line break; what was written to either stream before stays as it
    was. *)
Theorem loop_streams (n : nat) (b : Bot E) (w : io) (b' : Bot E) (w' : io) :
  loop json_loads think_impl n b w = Running b' w' ->
  exists out err,
    stdout w' = (stdout w ++ out)%list
    /\ List.length out = n
    /\ Forall (fun s => exists resp, s = resp ++ nl) out
    /\ stderr w' = (stderr w ++ err)%list
    /\ stdin w' = skipn n (stdin w).
Proof.
  revert b w. induction n as [|n IH]; intros b w H; cbn [loop] in H.
  - injection H as _ <-. exists [], []. rewrite !app_nil_r.
    repeat split; constructor.
  - unfold loop_body in H.
    destruct (readline (stdin w)) as [raw rest] eqn:Hread.
    destruct (react json_loads think_impl b (py_strip raw))
      as [[b1 log] [resp|e]]; [|discriminate H].
    destruct (IH _ _ H) as (out & err & Hout & Hlen & Hall & Herr & Hin).
    cbn [stdout stderr stdin] in Hout, Herr, Hin.
    exists ((resp ++ nl) :: out), (log ++ err)%list.
    split; [rewrite Hout, <- app_assoc; reflexivity|].
    split; [cbn; now rewrite Hlen|].
    split; [constructor; [now exists resp | exact Hall]|].
    split; [rewrite Herr, <- app_assoc; reflexivity|].
    rewrite Hin. destruct (stdin w) as [|l r]; cbn in Hread;
      injection Hread as _ <-; [now rewrite skipn_nil | reflexivity].
Qed.

(** X17: a line is handled as what [strip] leaves of it: white space around
    it, the line break included, makes no difference to a pass of the loop;
    and a line of white space only is answered like the end of the input,
    with the none event, whatever the policy. *)
Theorem loop_body_strips (b : Bot E) (before line after : string)
  (rest out err : list string) :
  all_space before = true -> all_space after = true ->
  loop_body json_loads think_impl b (IO ((before ++ line ++ after) :: rest) out err)
  = loop_body json_loads think_impl b (IO (line :: rest) out err)
  /\ (forall msg,
        all_space line = true -> json_loads "" = inl msg ->
        loop_body json_loads think_impl b (IO (line :: rest) out err)
        = Running b (IO rest (out ++ [none_line ++ nl])
                       (err ++ error_log b (Exn JSONDecodeError msg)))).
Proof.
  intros Hb Ha. split.
  - unfold loop_body; cbn [stdin readline].
    now rewrite (py_strip_padded before line after Hb Ha).
  - intros msg Hl Hempty. unfold loop_body; cbn [stdin readline].
    unfold py_strip. rewrite (lstrip_all_space line Hl). cbn [rstrip].
    unfold react, react_try. rewrite Hempty. reflexivity.
Qed.

End Streams.

Lemma loop_streams_witness :
  exists w' out,
    loop Fixture.loads think 2 (Bot_init Fixture.engine 0)
      (IO [draw_line ++ nl] [] [])
    = Running Fixture.after_draw w'
    /\ stdout w' = out /\ List.length out = 2 /\ stdin w' = [].
Proof.
  assert (H : loop Fixture.loads think 2 (Bot_init Fixture.engine 0)
                (IO [draw_line ++ nl] [] [])
              = Running Fixture.after_draw
                  (IO [] [dumps_compact (dahai_event "5m" 0 true) ++ nl;
                          none_line ++ nl]
                     (error_log Fixture.after_draw
                        (Exn JSONDecodeError
                           "Expecting value: line 1 column 1 (char 0)"))))
    by (vm_compute; reflexivity).
  destruct (loop_streams Fixture.loads think 2 _ _ _ _ H)
    as (out & err & Hout & Hlen & _ & _ & Hin).
  eexists; exists out. split; [exact H|].
  split; [exact Hout|]. split; [exact Hlen | exact Hin].
Defined.

Lemma loop_body_strips_witness :
  loop_body Fixture.loads think (Bot_init Fixture.engine 0)
    (IO [(" " ++ draw_line ++ nl)] [] [])
  = loop_body Fixture.loads think (Bot_init Fixture.engine 0)
      (IO [draw_line] [] []).
Proof.
  exact (proj1 (loop_body_strips Fixture.loads think (Bot_init Fixture.engine 0)
                  " " draw_line nl [] [] [] eq_refl eq_refl)).
Defined.

(** ** Further properties: the default policy inside [react] *)

Section PolicyInReact.

Context {E : Engine}.
Variable json_loads : string -> string + json.



(** X19: discarding needs a self-draw.  When the engine has no last
    self-drawn tile to report, [action_discard] raises the engine's
    rejection for every tile, also one named from the hand, and the default
    policy raises it whenever the snapshot allows a discard. *)
Theorem discard_needs_self_draw (b : Bot E) (msg : string) :
  ps_last_self_tsumo E (player_state b) = inl msg ->
  (forall tile_str, action_discard b tile_str = Raise (Exn EngineError msg))
  /\ (forall ac,
        action_candidate b = Some ac -> ac_can_discard ac = true ->
        think b = Raise (Exn EngineError msg)).
Proof.
  intros H. split.
  - intros tile_str. unfold action_discard. now rewrite H.
  - intros ac Hac Hd. unfold think, can_discard.
    rewrite (candidate_field_Some _ _ _ Hac), Hd. cbn [bind].
    unfold last_self_tsumo. now rewrite H.
Qed.

End PolicyInReact.


Lemma discard_needs_self_draw_witness :
  action_discard Fixture.after_foreign_discard "E"
  = Raise (Exn EngineError "no self draw").
Proof.
  apply (proj1 (discard_needs_self_draw Fixture.after_foreign_discard
                  "no self draw" eq_refl)).
Defined.
